(** * mcglobusfs: the staging-path codec and the Globus task monitor

    A shallow embedding of
      - pkg/fs/mcbridgefs/transfer_path_context.go (TransferPathContext and
        its encode/decode functions), and
      - pkg/monitor/globus_task_monitor.go (GlobusTaskMonitor and its poll
        loop),
    followed by the properties of both that the specification states.

    Go strings are byte strings: they are modelled by [string] (a list of
    8-bit [ascii]).  Go's [int] is the 64-bit signed integer: it is modelled
    by [Z], and the places where the library clamps to the 64-bit range are
    written out.  A run-time panic (index out of range) is [None]. *)

From Stdlib Require Import ZArith Ascii.
From stdpp Require Import gmap strings list.

Open Scope Z_scope.

(* ===================================================================== *)
(** * Part I: definitions                                                 *)
(* ===================================================================== *)

(** ** The Go library functions the codec calls *)

Module strings.

(** [strings.Index(s, "/")] together with the two slices [s[:m]] and
    [s[m+1:]] that [genSplit] takes around it; [None] when [m < 0]. *)
Fixpoint cut (s : string) : option (string * string) :=
  match s with
  | EmptyString => None
  | String c s' =>
      if Ascii.eqb c "/" then Some (EmptyString, s')
      else match cut s' with
           | Some (a, b) => Some (String c a, b)
           | None => None
           end
  end.

(** [strings.Count(s, "/")]. *)
Fixpoint Count (s : string) : nat :=
  match s with
  | EmptyString => O
  | String c s' => if Ascii.eqb c "/" then S (Count s') else Count s'
  end.

(** The loop of [genSplit]: at most [k] cuts, the remainder is the last
    piece. *)
Fixpoint splitLoop (k : nat) (s : string) : list string :=
  match k with
  | O => [s]
  | S k' =>
      match cut s with
      | None => [s]
      | Some (a, b) => a :: splitLoop k' b
      end
  end.

(** [genSplit(s, "/", 0, n)]. *)
Definition genSplit (s : string) (n : Z) : list string :=
  if n =? 0 then []
  else
    let n := if n <? 0 then Z.of_nat (Count s) + 1 else n in
    splitLoop (Z.to_nat (n - 1)) s.

(** [strings.SplitN(s, "/", n)] and [strings.Split(s, "/")]. *)
Definition SplitN (s : string) (n : Z) : list string := genSplit s n.
Definition Split (s : string) : list string := genSplit s (-1).

(** [strings.Join(elems, "/")]. *)
Fixpoint Join (elems : list string) : string :=
  match elems with
  | [] => ""
  | [e] => e
  | e :: rest => e +:+ "/" +:+ Join rest
  end.

End strings.

Module strconv.

Definition intSize : Z := 64.
Definition maxUint64 : Z := 2 ^ 64 - 1.
Definition maxInt : Z := 2 ^ 63 - 1.
Definition minInt : Z := - 2 ^ 63.

Inductive NumError : Set := ErrSyntax | ErrRange.

Definition byteZ (c : ascii) : Z := Z.of_nat (nat_of_ascii c).

(** [formatBits] in base 10: the decimal digits of [u], most significant
    first, written in front of [acc]. *)
Fixpoint formatBits (fuel : nat) (u : Z) (acc : string) : string :=
  match fuel with
  | O => acc
  | S fuel' =>
      if u <? 10 then String (ascii_of_nat (Z.to_nat (48 + u))) acc
      else formatBits fuel' (u / 10)
             (String (ascii_of_nat (Z.to_nat (48 + u mod 10))) acc)
  end.

(** [strconv.FormatInt(i, 10)], which is what the verb [%d] prints for an
    [int]. *)
Definition FormatInt (i : Z) : string :=
  if i <? 0 then String "-" (formatBits 20 (- i) "") else formatBits 20 i "".

(** The digit loop of [Atoi]'s fast path: [ch -= '0'] is byte arithmetic. *)
Fixpoint atoiDigits (s : string) (n : Z) : option Z :=
  match s with
  | EmptyString => Some n
  | String c s' =>
      let ch := (byteZ c - 48) mod 256 in
      if 9 <? ch then None else atoiDigits s' (n * 10 + ch)
  end.

(** The digit loop of [ParseUint(s, 10, 64)]; [cutoff = maxUint64/10 + 1]. *)
Fixpoint parseUintLoop (s : string) (n : Z) : Z * option NumError :=
  match s with
  | EmptyString => (n, None)
  | String c s' =>
      if (48 <=? byteZ c) && (byteZ c <=? 57) then
        let d := byteZ c - 48 in
        if maxUint64 / 10 + 1 <=? n then (maxUint64, Some ErrRange)
        else
          let n10 := n * 10 in
          let n1 := (n10 + d) mod 2 ^ 64 in
          if (n1 <? n10) || (maxUint64 <? n1) then (maxUint64, Some ErrRange)
          else parseUintLoop s' n1
      else (0, Some ErrSyntax)
  end.

Definition ParseUint (s : string) : Z * option NumError :=
  match s with
  | EmptyString => (0, Some ErrSyntax)
  | _ => parseUintLoop s 0
  end.

(** [strconv.ParseInt(s, 10, 0)]. *)
Definition ParseInt (s : string) : Z * option NumError :=
  match s with
  | EmptyString => (0, Some ErrSyntax)
  | String c s' =>
      let neg := Ascii.eqb c "-" in
      let s1 := if Ascii.eqb c "+" || neg then s' else s in
      match ParseUint s1 with
      | (_, Some ErrSyntax) => (0, Some ErrSyntax)
      | (un, _) =>
          let cutoff := 2 ^ (intSize - 1) in
          if negb neg && (cutoff <=? un) then (cutoff - 1, Some ErrRange)
          else if neg && (cutoff <? un) then (- cutoff, Some ErrRange)
          else (if neg then - un else un, None)
      end
  end.

(** [strconv.Atoi(s)]: the value and the error.  A syntax error gives 0, a
    range error gives the nearest bound of [int]. *)
Definition Atoi (s : string) : Z * option NumError :=
  let sLen := String.length s in
  if (0 <? sLen)%nat && (sLen <? 19)%nat then
    match s with
    | EmptyString => (0, Some ErrSyntax)
    | String c s' =>
        let signed := Ascii.eqb c "-" || Ascii.eqb c "+" in
        let s1 := if signed then s' else s in
        if signed && (String.length s1 <? 1)%nat then (0, Some ErrSyntax)
        else
          match atoiDigits s1 0 with
          | None => (0, Some ErrSyntax)
          | Some n => (if Ascii.eqb c "-" then - n else n, None)
          end
    end
  else ParseInt s.

End strconv.

Module filepath.

(** The elements [Clean] tells apart, by the case of its loop that handles
    them. *)
Definition isDot (e : string) : bool := bool_decide (e = ".").
Definition isDotDot (e : string) : bool := bool_decide (e = "..").
Definition isEmpty (e : string) : bool := bool_decide (e = "").

Definition rooted (path : string) : bool :=
  match path with
  | String c _ => Ascii.eqb c "/"
  | EmptyString => false
  end.

(** One round of [Clean]'s loop, on the next '/'-separated element.  [out]
    holds the elements written so far, [dotdot] how many of them are the
    leading [..] elements of a relative path, which [..] cannot remove. *)
Definition cleanStep (isRooted : bool) (st : list string * nat) (e : string)
  : list string * nat :=
  let '(out, dotdot) := st in
  if isEmpty e then st
  else if isDot e then st
  else if isDotDot e then
    if (dotdot <? length out)%nat then (removelast out, dotdot)
    else if isRooted then st
    else (out ++ [e], S dotdot)
  else (out ++ [e], dotdot).

Definition cleanElems (isRooted : bool) (elems : list string) : list string :=
  fst (fold_left (cleanStep isRooted) elems ([], O)).

(** [filepath.Clean(path)] on Unix. *)
Definition Clean (path : string) : string :=
  match path with
  | EmptyString => "."
  | _ =>
      let out := cleanElems (rooted path) (strings.Split path) in
      if rooted path then String "/" (strings.Join out)
      else match out with
           | [] => "."
           | _ => strings.Join out
           end
  end.

(** [filepath.Join(elem...)]: the elements from the first non-empty one on,
    joined by '/' and cleaned. *)
Fixpoint Join (elem : list string) : string :=
  match elem with
  | [] => ""
  | e :: rest =>
      if isEmpty e then Join rest else Clean (strings.Join (e :: rest))
  end.

End filepath.

(** [fmt.Sprintf("%d/%d", a, b)]. *)
Definition Sprintf_d_d (a b : Z) : string :=
  strconv.FormatInt a +:+ "/" +:+ strconv.FormatInt b.

(** ** transfer_path_context.go *)

Record TransferPathContext : Set := mkTransferPathContext {
  TransferType : string;
  UserID : Z;
  ProjectID : Z;
  Path : string
}.

Definition ProjectPathContext (p : TransferPathContext) : string :=
  filepath.Join ["/"; TransferType p; Sprintf_d_d (UserID p) (ProjectID p)].

Definition IsTransferType (p : TransferPathContext) : bool :=
  negb (bool_decide (TransferType p = "")).

Definition IsRoot (p : TransferPathContext) : bool :=
  bool_decide (TransferType p = "").

Definition IsUserID (p : TransferPathContext) : bool := negb (UserID p =? 0).

Definition IsProject (p : TransferPathContext) : bool :=
  negb (ProjectID p =? 0).

Definition ToFilePath (p : TransferPathContext) (name : string) : string :=
  filepath.Join [Path p; name].

Definition ToFSPath (p : TransferPathContext) (name : string) : string :=
  filepath.Join
    ["/"; TransferType p; Sprintf_d_d (UserID p) (ProjectID p); Path p; name].

(** [ToTransferPathContext].  The indexings [pathParts[2]], [pathParts[3]]
    and [pathParts[4]] stand behind a test of [len(pathParts)];
    [pathParts[1]] stands behind none. *)
Definition ToTransferPathContext (p : string) : option TransferPathContext :=
  let pathParts := strings.SplitN p 5 in
  userID ← (if (2 <? length pathParts)%nat
            then e ← pathParts !! 2%nat; Some (fst (strconv.Atoi e))
            else Some 0);
  projectID ← (if (3 <? length pathParts)%nat
               then e ← pathParts !! 3%nat; Some (fst (strconv.Atoi e))
               else Some 0);
  let rest := if negb (userID =? 0) && negb (projectID =? 0) then "/" else "" in
  rest ← (if (length pathParts =? 5)%nat
          then e ← pathParts !! 4%nat; Some (filepath.Join ["/"; e])
          else Some rest);
  transferType ← pathParts !! 1%nat;
  Some {| TransferType := transferType;
          UserID := userID;
          ProjectID := projectID;
          Path := rest |}.

(** [Node.ToTransferPathContext], as a function of [basePath], the string
    that [n.Path(n.Root())] gives; the type [Node] and its methods are not
    among the sources. *)
Definition Node_ToTransferPathContext (basePath : string)
  : option TransferPathContext :=
  ToTransferPathContext (filepath.Join ["/"; basePath]).

(** ** The external packages the monitor calls *)

Module time.

(** An instant: nanoseconds since the Unix epoch. *)
Definition Instant : Set := Z.

Definition Second : Z := 1000000000.

(** Days from 1970-01-01 to the given proleptic Gregorian date. *)
Definition daysFromCivil (year month day : Z) : Z :=
  let y := if month <=? 2 then year - 1 else year in
  let era := y / 400 in
  let yoe := y - era * 400 in
  let mp := if 2 <? month then month - 3 else month + 9 in
  let doy := (153 * mp + 2) / 5 + day - 1 in
  let doe := yoe * 365 + yoe / 4 - yoe / 100 + doy in
  era * 146097 + doe - 719468.

(** [time.Date(year, month, day, hour, min, sec, nsec, time.UTC)]. *)
Definition Date (year month day hour min sec nsec : Z) : Instant :=
  (daysFromCivil year month day * 86400 + hour * 3600 + min * 60 + sec)
  * Second + nsec.

Definition November : Z := 11.

(** [t.After(u)]. *)
Definition After (t u : Instant) : bool := u <? t.

End time.

Module globus.

(** The fields of goglobus's [Task] and [TransferItem] that the monitor
    reads. *)
Record Task : Set := mkTask {
  TaskID : string;
  CompletionTime : string
}.

Record TransferItem : Set := mkTransferItem {
  SourcePath : string;
  DestinationPath : string
}.

Record TaskList : Set := mkTaskList { Tasks : list Task }.

Record TransferItems : Set := mkTransferItems { Transfers : list TransferItem }.

End globus.

(** A Go [error] value, by its message. *)
Definition error : Set := string.

(** ** globus_task_monitor.go *)

(** The monitor's own fields.  [client] and [db] are handles on the
    external service and the database: what they answer is the [Cycle]
    record below. *)
Record GlobusTaskMonitor : Type := mkGlobusTaskMonitor {
  endpointID : string;
  finishedGlobusTasks : gmap string bool;
  lastProcessedTime : time.Instant
}.

Definition NewGlobusTaskMonitor (endpointID : string) : GlobusTaskMonitor :=
  {| endpointID := endpointID;
     finishedGlobusTasks := ∅;
     lastProcessedTime := time.Date 2009 time.November 10 23 0 0 0 |}.

(** What the world answers during one round of the loop of
    [monitorAndProcessTasks]. *)
Record Cycle : Type := mkCycle {
  (** [time.Now().AddDate(0, 0, -7).Format("2006-01-02")] *)
  lastWeek : string;
  (** the answer of [client.GetEndpointTaskList(endpointID, taskFilter)] *)
  GetEndpointTaskList :
    string → gmap string string → error + globus.TaskList;
  (** the answer of [client.GetTaskSuccessfulTransfers(taskID, 0)] for the
      task at the given position of the task list *)
  GetTaskSuccessfulTransfers : nat → string → error + globus.TransferItems;
  (** whether [c.Done()] is ready when it is polled after the task at the
      given position *)
  doneAfterTask : nat → bool;
  (** whether [ctx.Done()] is ready before [time.After(10 * time.Second)] *)
  doneBeforeTick : bool
}.

(** What the monitor does that can be seen from outside: its calls of the
    external service, its log lines and its waits. *)
Inductive Event : Type :=
  | LogStarting
  | CallGetEndpointTaskList (endpoint : string) (filter : gmap string string)
  | LogTaskListError (err : error)
  | LogTimeParseError (completionTime : string)
  | CallGetTaskSuccessfulTransfers (taskID : string)
  | LogTransfersError (taskID : string) (err : error)
  | LogInvalidDestinationPath (path : string)
  | LogProcessingUpload (id : string)
  | WaitTenSeconds
  | LogShuttingDown.

(** A method of the monitor: from the receiver's state to a result, the
    state after it and the events in order, or [None] for a panic.  An
    assignment to a field of the receiver would be a method that returns
    another state; the source has none outside [NewGlobusTaskMonitor], so
    the methods below are built from reads ([receiver]) and events only. *)
Definition M (A : Type) : Type :=
  GlobusTaskMonitor → option (A * GlobusTaskMonitor * list Event).

#[export] Instance M_ret : MRet M := λ A a m, Some (a, m, []).

#[export] Instance M_bind : MBind M := λ A B f x m,
  match x m with
  | None => None
  | Some (a, m1, e1) =>
      match f a m1 with
      | None => None
      | Some (b, m2, e2) => Some (b, m2, e1 ++ e2)
      end
  end.

Definition emit (e : Event) : M unit := λ m, Some (tt, m, [e]).
Definition receiver : M GlobusTaskMonitor := λ m, Some (m, m, []).
Definition panic {A : Type} : M A := λ _, None.

(** How a round of a [for] loop ends. *)
Inductive LoopCtl : Set := NextRound | LeaveLoop.

Inductive RunStatus : Set := Stopped | Running.

Section Monitor.

(** [time.Parse(time.RFC3339, s)]: the instant, or [None] for an error. *)
Variable time_Parse_RFC3339 : string → option time.Instant.

Definition processTask (task : globus.Task) : M bool :=
  match time_Parse_RFC3339 (globus.CompletionTime task) with
  | None =>
      emit (LogTimeParseError (globus.CompletionTime task));;
      mret false
  | Some taskCompletionTime =>
      m ← receiver;
      mret (time.After taskCompletionTime (lastProcessedTime m))
  end.

Definition processTransfers (transfers : globus.TransferItems) : M unit :=
  match globus.Transfers transfers with
  | [] => panic
  | transferItem :: _ =>
      if bool_decide (globus.DestinationPath transferItem = "") then mret tt
      else
        let pieces := strings.Split (globus.DestinationPath transferItem) in
        if (length pieces <? 5)%nat then
          emit (LogInvalidDestinationPath (globus.DestinationPath transferItem))
        else
          match pieces !! 2%nat with
          | None => panic
          | Some id =>
              m ← receiver;
              match finishedGlobusTasks m !! id with
              | Some _ => mret tt
              | None => emit (LogProcessingUpload id)
              end
          end
  end.

Definition taskFilter (c : Cycle) : gmap string string :=
  <["filter_completion_time" := lastWeek c]>
    (<["filter_status" := "SUCCEEDED"]>
       (<["orderby" := "completion_time ASC"]>
          (<["limit" := "1000"]> ∅))).

(** The [select] that ends a round of the loop over the tasks.  Its [break]
    stands inside the [select] statement, which is the statement a Go
    [break] without a label ends: both cases go on to the next round. *)
Definition pollDone (done : bool) : LoopCtl :=
  if done then NextRound else NextRound.

(** One round of the loop over [tasks.Tasks], for the task at position
    [i]. *)
Definition taskRound (c : Cycle) (i : nat) (task : globus.Task) : M LoopCtl :=
  ok ← processTask task;
  if negb ok then mret NextRound
  else
    emit (CallGetTaskSuccessfulTransfers (globus.TaskID task));;
    match GetTaskSuccessfulTransfers c i (globus.TaskID task) with
    | inl err =>
        emit (LogTransfersError (globus.TaskID task) err);;
        mret NextRound
    | inr transfers =>
        if (length (globus.Transfers transfers) =? 0)%nat then mret NextRound
        else
          processTransfers transfers;;
          mret (pollDone (doneAfterTask c i))
    end.

Fixpoint rangeTasks (c : Cycle) (i : nat) (tasks : list globus.Task) : M unit :=
  match tasks with
  | [] => mret tt
  | task :: rest =>
      ctl ← taskRound c i task;
      match ctl with
      | NextRound => rangeTasks c (S i) rest
      | LeaveLoop => mret tt
      end
  end.

Definition retrieveAndProcessUploads (c : Cycle) : M unit :=
  m ← receiver;
  emit (CallGetEndpointTaskList (endpointID m) (taskFilter c));;
  match GetEndpointTaskList c (endpointID m) (taskFilter c) with
  | inl err => emit (LogTaskListError err)
  | inr tasks => rangeTasks c 0 (globus.Tasks tasks)
  end.

(** The loop of [monitorAndProcessTasks], over the rounds the world has
    answers for; [Running] when the loop is still going after them. *)
Fixpoint monitorAndProcessTasks (cycles : list Cycle) : M RunStatus :=
  match cycles with
  | [] => mret Running
  | c :: rest =>
      retrieveAndProcessUploads c;;
      if doneBeforeTick c then emit LogShuttingDown;; mret Stopped
      else emit WaitTenSeconds;; monitorAndProcessTasks rest
  end.

Definition Start (cycles : list Cycle) : M RunStatus :=
  emit LogStarting;;
  monitorAndProcessTasks cycles.

End Monitor.

(** The identifiers handed to the downstream pipeline, in order.  The calls
    of the pipeline are commented out in [processTransfers]; what is left
    of the hand-off is its log line. *)
Definition handOffs (evs : list Event) : list string :=
  omap (λ e, match e with LogProcessingUpload id => Some id | _ => None end) evs.

(** The tasks whose transfers were asked for, in order. *)
Definition fetched (evs : list Event) : list string :=
  omap (λ e, match e with
             | CallGetTaskSuccessfulTransfers t => Some t
             | _ => None
             end) evs.

Definition events {A : Type} (r : option (A * GlobusTaskMonitor * list Event))
  : list Event :=
  match r with
  | Some (_, _, evs) => evs
  | None => []
  end.

Definition stateAfter {A : Type} (r : option (A * GlobusTaskMonitor * list Event))
  : option GlobusTaskMonitor :=
  match r with
  | Some (_, m, _) => Some m
  | None => None
  end.

(** ** A parser to run the monitor with

    [time.Parse(time.RFC3339, s)] on the timestamps of the form
    [2006-01-02T15:04:05Z]: second resolution, UTC.  (The Go function also
    takes fractions of a second and numeric zone offsets; the properties
    below are stated for every parser.) *)

Definition digitValue (c : ascii) : option Z :=
  let b := strconv.byteZ c in
  if (48 <=? b) && (b <=? 57) then Some (b - 48) else None.

Definition twoDigits (a b : ascii) : option Z :=
  x ← digitValue a; y ← digitValue b; Some (x * 10 + y).

Definition isLeap (year : Z) : bool :=
  (year mod 4 =? 0) && (negb (year mod 100 =? 0) || (year mod 400 =? 0)).

Definition daysIn (month year : Z) : Z :=
  if month =? 2 then (if isLeap year then 29 else 28)
  else if (month =? 4) || (month =? 6) || (month =? 9) || (month =? 11) then 30
  else 31.

Definition parseUTCSeconds (s : string) : option time.Instant :=
  match String.list_ascii_of_string s with
  | [y1; y2; y3; y4; "-"; m1; m2; "-"; d1; d2; "T";
     h1; h2; ":"; n1; n2; ":"; s1; s2; "Z"]%char =>
      yh ← twoDigits y1 y2; yl ← twoDigits y3 y4;
      month ← twoDigits m1 m2; day ← twoDigits d1 d2;
      hour ← twoDigits h1 h2; min ← twoDigits n1 n2; sec ← twoDigits s1 s2;
      let year := yh * 100 + yl in
      if (1 <=? month) && (month <=? 12) && (1 <=? day)
         && (day <=? daysIn month year)
         && (hour <? 24) && (min <? 60) && (sec <? 60)
      then Some (time.Date year month day hour min sec 0)
      else None
  | _ => None
  end.

(** ** Notions the statements below use *)

(** The same result with events in front of its own. *)
Definition prependEvents {A : Type} (evs : list Event)
    (r : option (A * GlobusTaskMonitor * list Event))
  : option (A * GlobusTaskMonitor * list Event) :=
  match r with
  | Some (a, m, evs') => Some (a, m, evs ++ evs')
  | None => None
  end.

(** A method returns, and leaves the receiver's fields as they were. *)
Definition returnsUnchanged {A : Type} (x : M A) (m : GlobusTaskMonitor) : Prop :=
  ∃ a evs, x m = Some (a, m, evs).

(** The world of a round, with other answers about [c.Done()]. *)
Definition withDoneAfterTask (c : Cycle) (done : nat → bool) : Cycle :=
  {| lastWeek := lastWeek c;
     GetEndpointTaskList := GetEndpointTaskList c;
     GetTaskSuccessfulTransfers := GetTaskSuccessfulTransfers c;
     doneAfterTask := done;
     doneBeforeTick := doneBeforeTick c |}.

(** A byte string without '/'. *)
Definition noSlash (s : string) : Prop := strings.Count s = O.

(** A real path element, the default case of [Clean]'s loop: not empty,
    neither [.] nor [..], and without '/'. *)
Definition realElem (e : string) : Prop :=
  e ≠ "" ∧ e ≠ "." ∧ e ≠ ".." ∧ noSlash e.

(** The split of a string at every '/', by recursion on the string. *)
Fixpoint splitAll (s : string) : list string :=
  match s with
  | EmptyString => [""]
  | String c s' =>
      if Ascii.eqb c "/" then "" :: splitAll s'
      else match splitAll s' with
           | h :: t => String c h :: t
           | [] => [String c ""]
           end
  end.

(** An element [Clean] skips or copies: empty, or real. *)
Definition emptyOrReal (e : string) : Prop := e = "" ∨ realElem e.

Definition nonEmpties (l : list string) : list string :=
  filter (λ e, e ≠ "") l.

(** The canonical form of a relative path: the logically empty one is "/". *)
Definition canonicalPath (path : string) : string :=
  if decide (path = "") then "/" else path.

(** A path none of whose elements is [..]. *)
Definition noDotDot (path : string) : Prop :=
  Forall (λ e, e ≠ "..") (strings.Split path).

(** The elements of a list that [Clean] copies when none is [..]. *)
Definition keptElems (l : list string) : list string :=
  filter (λ e, e ≠ "" ∧ e ≠ ".") l.

(** The rounds of the loop of [monitorAndProcessTasks] that are run: up to
    the first one at whose end the context is done. *)
Fixpoint roundsRun (cycles : list Cycle) : list Cycle :=
  match cycles with
  | [] => []
  | c :: rest => c :: if doneBeforeTick c then [] else roundsRun rest
  end.

(** The queries for the task list, in order: endpoint and filter. *)
Definition queries (evs : list Event) : list (string * gmap string string) :=
  omap (λ e, match e with
             | CallGetEndpointTaskList ep f => Some (ep, f)
             | _ => None
             end) evs.

(** The events of the loop over the tasks. *)
Definition taskEvent (e : Event) : Prop :=
  match e with
  | LogTimeParseError _ | CallGetTaskSuccessfulTransfers _
  | LogTransfersError _ _ | LogInvalidDestinationPath _
  | LogProcessingUpload _ => True
  | _ => False
  end.

(** ** Sample worlds *)

Definition oneItem (dest : string) : globus.TransferItems :=
  globus.mkTransferItems [globus.mkTransferItem "/home/user/f.txt" dest].

(** One completed upload, the same at every poll. *)
Definition uploadCycle : Cycle :=
  {| lastWeek := "2021-02-25";
     GetEndpointTaskList := λ _ _,
       inr (globus.mkTaskList [globus.mkTask "t1" "2021-03-04T05:06:07Z"]);
     GetTaskSuccessfulTransfers := λ _ _,
       inr (oneItem "/__transfers/globus/7/12/f.txt");
     doneAfterTask := λ _, false;
     doneBeforeTick := false |}.

(** Two completed uploads, with the context done from the first on. *)
Definition cancelledCycle : Cycle :=
  {| lastWeek := "2021-02-25";
     GetEndpointTaskList := λ _ _,
       inr (globus.mkTaskList [globus.mkTask "t1" "2021-03-04T05:06:07Z";
                               globus.mkTask "t2" "2021-03-04T05:07:00Z"]);
     GetTaskSuccessfulTransfers := λ _ taskID,
       inr (oneItem (if bool_decide (taskID = "t1")
                     then "/__transfers/globus/7/12/a.txt"
                     else "/__transfers/globus/8/13/b.txt"));
     doneAfterTask := λ _, true;
     doneBeforeTick := true |}.

(** The service does not answer the query. *)
Definition failingCycle : Cycle :=
  {| lastWeek := "2021-02-25";
     GetEndpointTaskList := λ _ _, inl "connection refused";
     GetTaskSuccessfulTransfers := λ _ _, inl "connection refused";
     doneAfterTask := λ _, false;
     doneBeforeTick := false |}.

(** A download, an upload with a short destination path, then an upload. *)
Definition mixedCycle : Cycle :=
  {| lastWeek := "2021-02-25";
     GetEndpointTaskList := λ _ _,
       inr (globus.mkTaskList [globus.mkTask "t1" "2021-03-04T05:06:07Z";
                               globus.mkTask "t2" "2021-03-04T05:07:00Z";
                               globus.mkTask "t3" "2021-03-04T05:08:00Z"]);
     GetTaskSuccessfulTransfers := λ _ taskID,
       inr (oneItem (if bool_decide (taskID = "t1") then ""
                     else if bool_decide (taskID = "t2") then "/__transfers/globus"
                     else "/__transfers/globus/8/13/b.txt"));
     doneAfterTask := λ _, false;
     doneBeforeTick := false |}.

(* ===================================================================== *)
(** * Part II: properties                                                 *)
(* ===================================================================== *)

(** ** Byte strings *)

#[local] Arguments String.append !_ _ / : simpl nomatch.
#[local] Arguments filepath.Clean : simpl never.

Lemma append_assoc (a b c : string) : (a +:+ b) +:+ c = a +:+ (b +:+ c).
Proof. induction a as [|x a IH]; simpl; [reflexivity | now rewrite IH]. Qed.

Lemma append_nil_r (a : string) : a +:+ "" = a.
Proof. induction a as [|x a IH]; simpl; [reflexivity | now rewrite IH]. Qed.

Lemma Count_append (a b : string) :
  strings.Count (a +:+ b) = (strings.Count a + strings.Count b)%nat.
Proof.
  induction a as [|x a IH]; simpl; [reflexivity |].
  destruct (Ascii.eqb x "/"); simpl; now rewrite IH.
Qed.

Lemma cut_noSlash (a : string) : noSlash a → strings.cut a = None.
Proof.
  unfold noSlash. induction a as [|x a IH]; simpl; [reflexivity |].
  destruct (Ascii.eqb x "/"); [discriminate |].
  intros H. now rewrite IH.
Qed.

Lemma cut_append (a b : string) :
  noSlash a → strings.cut (a +:+ String "/" b) = Some (a, b).
Proof.
  unfold noSlash. induction a as [|x a IH]; simpl; [reflexivity |].
  destruct (Ascii.eqb x "/"); [discriminate |].
  intros H. now rewrite IH.
Qed.

Lemma splitLoop_noSlash (k : nat) (a : string) :
  noSlash a → strings.splitLoop k a = [a].
Proof. intros H. destruct k; simpl; [reflexivity | now rewrite cut_noSlash]. Qed.

Lemma splitLoop_append (k : nat) (a b : string) :
  noSlash a →
  strings.splitLoop (S k) (a +:+ String "/" b) = a :: strings.splitLoop k b.
Proof. intros H. simpl. now rewrite cut_append. Qed.

Lemma splitAll_nonempty (s : string) : splitAll s ≠ [].
Proof.
  induction s as [|c s IH]; simpl; [discriminate |].
  destruct (Ascii.eqb c "/"); [discriminate |].
  destruct (splitAll s); discriminate.
Qed.

(** The loop of [genSplit] splits at every '/' when it may cut often
    enough. *)
Lemma splitLoop_splitAll (k : nat) (s : string) :
  (strings.Count s ≤ k)%nat → strings.splitLoop k s = splitAll s.
Proof.
  revert k. induction s as [|c s IH]; intros k Hk.
  - destruct k; reflexivity.
  - simpl in Hk. destruct k as [|k].
    + simpl. destruct (Ascii.eqb c "/") eqn:E; [lia |].
      specialize (IH O Hk). simpl in IH. now rewrite <- IH.
    + simpl. destruct (Ascii.eqb c "/") eqn:E.
      * rewrite IH by lia. reflexivity.
      * pose proof (IH (S k) ltac:(lia)) as IH'. simpl in IH'.
        destruct (strings.cut s) as [[a b]|]; rewrite <- IH'; reflexivity.
Qed.

Lemma Split_splitAll (s : string) : strings.Split s = splitAll s.
Proof.
  unfold strings.Split, strings.genSplit. simpl.
  apply splitLoop_splitAll. lia.
Qed.

Lemma splitAll_append (a b : string) :
  splitAll (a +:+ String "/" b) = splitAll a ++ splitAll b.
Proof.
  induction a as [|c a IH]; simpl; [reflexivity |].
  destruct (Ascii.eqb c "/"); [now rewrite IH |].
  rewrite IH. pose proof (splitAll_nonempty a).
  destruct (splitAll a); [congruence | reflexivity].
Qed.

Lemma splitAll_noSlash (a : string) : noSlash a → splitAll a = [a].
Proof.
  unfold noSlash. induction a as [|c a IH]; simpl; [reflexivity |].
  destruct (Ascii.eqb c "/"); [discriminate |].
  intros H. now rewrite IH.
Qed.

Lemma Join_cons (e : string) (l : list string) :
  l ≠ [] → strings.Join (e :: l) = e +:+ String "/" (strings.Join l).
Proof. destruct l; [congruence | reflexivity]. Qed.

(** Splitting undoes joining, for elements without '/'. *)
Lemma splitAll_Join (l : list string) :
  l ≠ [] → Forall noSlash l → splitAll (strings.Join l) = l.
Proof.
  induction l as [|e l IH]; [congruence |]. intros _ Hall.
  inversion Hall as [|? ? He Hl]; subst.
  destruct l as [|e' l].
  - simpl. now apply splitAll_noSlash.
  - rewrite Join_cons by discriminate. rewrite splitAll_append.
    rewrite splitAll_noSlash by assumption.
    rewrite IH by (discriminate || assumption). reflexivity.
Qed.

Lemma splitAll_all_noSlash (s : string) : Forall noSlash (splitAll s).
Proof.
  induction s as [|c s IH]; simpl.
  - repeat constructor.
  - destruct (Ascii.eqb c "/") eqn:E.
    + constructor; [reflexivity | assumption].
    + destruct (splitAll s) as [|h t]; inversion IH; subst;
        constructor; trivial; unfold noSlash in *; simpl; now rewrite E.
Qed.

(** ** Decimal numbers *)

Lemma digit_byte (d : Z) :
  0 ≤ d < 10 → strconv.byteZ (ascii_of_nat (Z.to_nat (48 + d))) = 48 + d.
Proof.
  intros Hd. unfold strconv.byteZ.
  rewrite nat_ascii_embedding by lia. lia.
Qed.

Lemma byte_not (c x : ascii) :
  strconv.byteZ c ≠ strconv.byteZ x → Ascii.eqb c x = false.
Proof.
  intros H. destruct (Ascii.eqb_spec c x) as [->|]; [congruence | reflexivity].
Qed.

Lemma digit_not_slash (d : Z) :
  0 ≤ d < 10 → Ascii.eqb (ascii_of_nat (Z.to_nat (48 + d))) "/" = false.
Proof.
  intros Hd. apply byte_not. rewrite digit_byte by assumption.
  change (strconv.byteZ "/") with 47. lia.
Qed.

Lemma formatBits_Count (fuel : nat) (u : Z) (acc : string) :
  0 ≤ u → strings.Count (strconv.formatBits fuel u acc) = strings.Count acc.
Proof.
  revert u acc. induction fuel as [|fuel IH]; intros u acc Hu; simpl;
    [reflexivity |].
  destruct (u <? 10) eqn:E.
  - apply Z.ltb_lt in E. simpl. now rewrite digit_not_slash by lia.
  - apply Z.ltb_ge in E. rewrite IH by (apply Z.div_pos; lia).
    simpl. rewrite digit_not_slash; [reflexivity |].
    apply Z.mod_pos_bound. lia.
Qed.

(** A formatted number starts with a digit. *)
Lemma formatBits_head (fuel : nat) (u : Z) (acc : string) :
  0 ≤ u →
  ∃ c rest, strconv.formatBits (S fuel) u acc = String c rest
            ∧ 48 ≤ strconv.byteZ c ≤ 57.
Proof.
  revert u acc. induction fuel as [|fuel IH]; intros u acc Hu.
  - simpl. destruct (u <? 10) eqn:E.
    + apply Z.ltb_lt in E. eexists _, _. split; [reflexivity |].
      rewrite digit_byte; lia.
    + eexists _, _. split; [reflexivity |].
      pose proof (Z.mod_pos_bound u 10 ltac:(lia)). rewrite digit_byte; lia.
  - change (strconv.formatBits (S (S fuel)) u acc) with
      (if u <? 10 then String (ascii_of_nat (Z.to_nat (48 + u))) acc
       else strconv.formatBits (S fuel) (u / 10)
              (String (ascii_of_nat (Z.to_nat (48 + u mod 10))) acc)).
    destruct (u <? 10) eqn:E.
    + apply Z.ltb_lt in E. eexists _, _. split; [reflexivity |].
      rewrite digit_byte; lia.
    + apply IH. apply Z.div_pos; lia.
Qed.

Lemma atoiDigits_digit (c : ascii) (s : string) (n d : Z) :
  strconv.byteZ c = 48 + d → 0 ≤ d < 10 →
  strconv.atoiDigits (String c s) n = strconv.atoiDigits s (n * 10 + d).
Proof.
  intros Hc Hd. cbn [strconv.atoiDigits]. rewrite Hc.
  replace (48 + d - 48) with d by lia.
  rewrite Z.mod_small by lia.
  replace (9 <? d) with false by (symmetry; apply Z.ltb_ge; lia).
  reflexivity.
Qed.

Lemma atoiDigits_formatBits (fuel : nat) (u : Z) (acc : string) :
  0 ≤ u < 10 ^ Z.of_nat fuel →
  strconv.atoiDigits (strconv.formatBits fuel u acc) 0
  = strconv.atoiDigits acc u.
Proof.
  revert u acc. induction fuel as [|fuel IH]; intros u acc Hu.
  - simpl in *. now replace u with 0 by lia.
  - rewrite Nat2Z.inj_succ, Z.pow_succ_r in Hu by lia.
    cbn [strconv.formatBits]. destruct (u <? 10) eqn:E.
    + apply Z.ltb_lt in E.
      rewrite (atoiDigits_digit _ _ 0 u); [reflexivity | | lia].
      apply digit_byte. lia.
    + apply Z.ltb_ge in E.
      pose proof (Z.mod_pos_bound u 10 ltac:(lia)) as Hm.
      pose proof (Z.div_mod u 10 ltac:(lia)) as Hdm.
      rewrite IH
        by (split; [apply Z.div_pos; lia | apply Z.div_lt_upper_bound; lia]).
      rewrite (atoiDigits_digit _ _ (u / 10) (u mod 10));
        [f_equal; lia | apply digit_byte; lia | lia].
Qed.

Lemma parseUintLoop_digit (c : ascii) (s : string) (n d : Z) :
  strconv.byteZ c = 48 + d → 0 ≤ d < 10 → 0 ≤ n →
  n * 10 + d ≤ strconv.maxUint64 →
  strconv.parseUintLoop (String c s) n = strconv.parseUintLoop s (n * 10 + d).
Proof.
  intros Hc Hd Hn Hmax. simpl. rewrite Hc.
  replace ((48 <=? 48 + d) && (48 + d <=? 57)) with true
    by (symmetry; apply andb_true_iff; split; apply Z.leb_le; lia).
  assert (strconv.maxUint64 / 10 + 1 = 1844674407370955162) as -> by reflexivity.
  assert (strconv.maxUint64 = 18446744073709551615) as Hv by reflexivity.
  replace (1844674407370955162 <=? n) with false
    by (symmetry; apply Z.leb_gt; lia).
  replace (48 + d - 48) with d by lia.
  assert (2 ^ 64 = 18446744073709551616) as -> by reflexivity.
  rewrite Z.mod_small by lia.
  replace (n * 10 + d <? n * 10) with false by (symmetry; apply Z.ltb_ge; lia).
  replace (strconv.maxUint64 <? n * 10 + d) with false
    by (symmetry; apply Z.ltb_ge; lia).
  reflexivity.
Qed.

Lemma parseUintLoop_formatBits (fuel : nat) (u : Z) (acc : string) :
  0 ≤ u < 10 ^ Z.of_nat fuel → u ≤ strconv.maxUint64 →
  strconv.parseUintLoop (strconv.formatBits fuel u acc) 0
  = strconv.parseUintLoop acc u.
Proof.
  revert u acc. induction fuel as [|fuel IH]; intros u acc Hu Hmax.
  - simpl in *. now replace u with 0 by lia.
  - rewrite Nat2Z.inj_succ, Z.pow_succ_r in Hu by lia.
    cbn [strconv.formatBits]. destruct (u <? 10) eqn:E.
    + apply Z.ltb_lt in E.
      rewrite (parseUintLoop_digit _ _ 0 u); [reflexivity | | lia..].
      apply digit_byte. lia.
    + apply Z.ltb_ge in E.
      pose proof (Z.mod_pos_bound u 10 ltac:(lia)) as Hm.
      pose proof (Z.div_mod u 10 ltac:(lia)) as Hdm.
      assert (0 ≤ u / 10) by (apply Z.div_pos; lia).
      rewrite IH; [| split; [lia | apply Z.div_lt_upper_bound; lia] | lia].
      rewrite (parseUintLoop_digit _ _ (u / 10) (u mod 10));
        [f_equal; lia | apply digit_byte; lia | lia..].
Qed.

(** Parsing undoes formatting, for the positive values of [int]. *)
Lemma Atoi_FormatInt (n : Z) :
  0 < n ≤ strconv.maxInt → strconv.Atoi (strconv.FormatInt n) = (n, None).
Proof.
  intros Hn. assert (strconv.maxInt = 9223372036854775807) as Hv by reflexivity.
  unfold strconv.FormatInt.
  replace (n <? 0) with false by (symmetry; apply Z.ltb_ge; lia).
  assert (Hr : 0 ≤ n < 10 ^ Z.of_nat 20)
    by (change (10 ^ Z.of_nat 20) with 100000000000000000000; lia).
  pose proof (atoiDigits_formatBits 20 n "" Hr) as Hfast.
  assert (Hmax : n ≤ strconv.maxUint64)
    by (change strconv.maxUint64 with 18446744073709551615; lia).
  pose proof (parseUintLoop_formatBits 20 n "" Hr Hmax) as Hslow.
  destruct (formatBits_head 19 n "" ltac:(lia)) as (c & rest & Hs & Hc).
  rewrite Hs in *. clear Hs.
  assert (Ascii.eqb c "-" = false) as Hminus
    by (apply byte_not; change (strconv.byteZ "-") with 45; lia).
  assert (Ascii.eqb c "+" = false) as Hplus
    by (apply byte_not; change (strconv.byteZ "+") with 43; lia).
  unfold strconv.Atoi.
  destruct ((0 <? String.length (String c rest))%nat
            && (String.length (String c rest) <? 19)%nat).
  - rewrite Hminus, Hplus. cbn [orb andb]. rewrite Hfast. reflexivity.
  - unfold strconv.ParseInt, strconv.ParseUint.
    rewrite Hminus, Hplus. cbn [orb]. rewrite Hslow. cbn [strconv.parseUintLoop].
    cbn [negb andb].
    change (2 ^ (strconv.intSize - 1)) with 9223372036854775808.
    replace (9223372036854775808 <=? n) with false
      by (symmetry; apply Z.leb_gt; lia).
    reflexivity.
Qed.

Lemma FormatInt_noSlash (n : Z) : 0 ≤ n → noSlash (strconv.FormatInt n).
Proof.
  intros Hn. unfold noSlash, strconv.FormatInt.
  replace (n <? 0) with false by (symmetry; apply Z.ltb_ge; lia).
  now rewrite formatBits_Count.
Qed.

Lemma FormatInt_realElem (n : Z) : 0 ≤ n → realElem (strconv.FormatInt n).
Proof.
  intros Hn. pose proof (FormatInt_noSlash n Hn) as Hs.
  unfold strconv.FormatInt in *.
  replace (n <? 0) with false in * by (symmetry; apply Z.ltb_ge; lia).
  destruct (formatBits_head 19 n "" Hn) as (c & rest & Heq & Hc).
  rewrite Heq in *.
  assert (c ≠ "."%char)
    by (intros ->; change (strconv.byteZ ".") with 46 in Hc; lia).
  repeat split; try assumption; congruence.
Qed.

(** ** Clean *)

Lemma cleanStep_empty (r : bool) (st : list string * nat) :
  filepath.cleanStep r st "" = st.
Proof. destruct st. reflexivity. Qed.

Lemma cleanStep_real (r : bool) (out : list string) (dd : nat) (e : string) :
  realElem e → filepath.cleanStep r (out, dd) e = (out ++ [e], dd).
Proof.
  intros (H1 & H2 & H3 & _).
  unfold filepath.cleanStep, filepath.isEmpty, filepath.isDot, filepath.isDotDot.
  now rewrite !bool_decide_eq_false_2 by assumption.
Qed.

Lemma fold_emptyOrReal (r : bool) (l out : list string) (dd : nat) :
  Forall emptyOrReal l →
  fold_left (filepath.cleanStep r) l (out, dd) = (out ++ nonEmpties l, dd).
Proof.
  revert out. induction l as [|e l IH]; intros out Hall.
  - simpl. unfold nonEmpties. now rewrite filter_nil, app_nil_r.
  - inversion Hall as [|? ? He Hl]; subst. cbn [fold_left].
    unfold nonEmpties. destruct He as [->|He].
    + rewrite cleanStep_empty, filter_cons_False by (intros H; now apply H).
      now apply IH.
    + rewrite cleanStep_real by assumption.
      rewrite filter_cons_True by apply He.
      rewrite IH by assumption. unfold nonEmpties.
      now rewrite <- app_assoc.
Qed.

Lemma removelast_Forall {A : Type} (P : A → Prop) (l : list A) :
  Forall P l → Forall P (removelast l).
Proof.
  induction 1 as [|x l Hx Hl IH]; simpl; [constructor |].
  destruct l; [constructor | now constructor].
Qed.

(** On a rooted path [Clean] writes real elements only. *)
Lemma fold_rooted_real (l out : list string) (dd : nat) :
  Forall noSlash l → Forall realElem out →
  Forall realElem (fst (fold_left (filepath.cleanStep true) l (out, dd))).
Proof.
  revert out dd. induction l as [|e l IH]; intros out dd Hl Hout;
    [assumption |].
  inversion Hl as [|? ? He Hl']; subst. cbn [fold_left].
  unfold filepath.cleanStep, filepath.isEmpty, filepath.isDot, filepath.isDotDot.
  repeat case_bool_decide; try (now apply IH).
  - destruct (dd <? length out)%nat; apply IH; trivial.
    now apply removelast_Forall.
  - apply IH; trivial. apply Forall_app. split; [assumption |].
    constructor; [| constructor]. repeat split; assumption.
Qed.

Lemma Clean_rooted_shape (path : string) :
  filepath.rooted path = true →
  ∃ out, Forall realElem out ∧ filepath.Clean path = String "/" (strings.Join out).
Proof.
  intros Hr. destruct path as [|c s]; [discriminate |].
  unfold filepath.Clean. rewrite Hr.
  eexists. split; [| reflexivity].
  apply fold_rooted_real; [| constructor].
  rewrite Split_splitAll. apply splitAll_all_noSlash.
Qed.

Lemma Clean_rooted_split (path : string) :
  filepath.rooted path = true → Forall emptyOrReal (splitAll path) →
  filepath.Clean path = String "/" (strings.Join (nonEmpties (splitAll path))).
Proof.
  intros Hr Hall. destruct path as [|c s]; [discriminate |].
  unfold filepath.Clean, filepath.cleanElems. rewrite Hr, Split_splitAll.
  now rewrite fold_emptyOrReal.
Qed.

Lemma real_emptyOrReal (l : list string) :
  Forall realElem l → Forall emptyOrReal l.
Proof. intros H. eapply Forall_impl; [exact H |]. intros e He. now right. Qed.

Lemma real_noSlash (l : list string) : Forall realElem l → Forall noSlash l.
Proof. intros H. eapply Forall_impl; [exact H |]. intros e He. apply He. Qed.

Lemma nonEmpties_real (l : list string) :
  Forall realElem l → nonEmpties l = l.
Proof.
  unfold nonEmpties. induction 1 as [|e l He Hl IH]; [reflexivity |].
  rewrite filter_cons_True by apply He. now rewrite IH.
Qed.

Lemma nonEmpties_cons_empty (l : list string) :
  nonEmpties ("" :: l) = nonEmpties l.
Proof.
  unfold nonEmpties. now rewrite filter_cons_False by (intros H; now apply H).
Qed.

Lemma nonEmpties_app (l1 l2 : list string) :
  nonEmpties (l1 ++ l2) = nonEmpties l1 ++ nonEmpties l2.
Proof. apply filter_app. Qed.

(** The elements of the path that follows the leading '/'. *)
Lemma splitAll_Join_real (out : list string) :
  Forall realElem out →
  Forall emptyOrReal (splitAll (strings.Join out))
  ∧ nonEmpties (splitAll (strings.Join out)) = out.
Proof.
  intros Hout. destruct out as [|e out].
  - simpl. split; [repeat constructor |]. reflexivity.
  - rewrite splitAll_Join by (discriminate || now apply real_noSlash).
    split; [now apply real_emptyOrReal | now apply nonEmpties_real].
Qed.

(** A relative path that is empty, or rooted and clean, is a '/' followed by
    real elements joined by '/'. *)
Lemma path_elems (path : string) :
  path = "" ∨ (filepath.rooted path = true ∧ filepath.Clean path = path) →
  ∃ out, Forall realElem out
         ∧ Forall emptyOrReal (splitAll path)
         ∧ nonEmpties (splitAll path) = out
         ∧ String "/" (strings.Join out) = canonicalPath path.
Proof.
  intros [->|[Hr Hc]].
  - exists []. repeat split; repeat constructor.
  - destruct (Clean_rooted_shape path Hr) as (out & Hout & Heq).
    rewrite Hc in Heq. exists out. subst path.
    destruct (splitAll_Join_real out Hout) as [Ha Hn].
    cbn [splitAll Ascii.eqb Bool.eqb]. cbn.
    repeat split; try assumption.
    constructor; [now left | assumption].
Qed.

(** ** The codec *)

(** What [ToFSPath] writes for a context in canonical form. *)
Lemma ToFSPath_canonical (t path : string) (u p : Z) (out : list string) :
  realElem t → 0 ≤ u → 0 ≤ p →
  Forall emptyOrReal (splitAll path) → nonEmpties (splitAll path) = out →
  ToFSPath (mkTransferPathContext t u p path) ""
  = String "/"
      (strings.Join (t :: strconv.FormatInt u :: strconv.FormatInt p :: out)).
Proof.
  intros Ht Hu Hp Hall Hout.
  pose proof (FormatInt_realElem u Hu) as Hfu.
  pose proof (FormatInt_realElem p Hp) as Hfp.
  remember (String "/" (strings.Join
    (t :: strconv.FormatInt u :: strconv.FormatInt p :: out))) as canon.
  unfold ToFSPath, Sprintf_d_d. cbn [filepath.Join TransferType UserID ProjectID Path].
  unfold filepath.isEmpty at 1. rewrite bool_decide_eq_false_2 by discriminate.
  cbn [strings.Join]. rewrite !append_assoc. simpl.
  assert (Hsplit :
    splitAll (String "/" (String "/"
      (t +:+ String "/" (strconv.FormatInt u +:+ String "/"
        (strconv.FormatInt p +:+ String "/" (path +:+ String "/" ""))))))
    = ["";  ""; t; strconv.FormatInt u; strconv.FormatInt p]
        ++ splitAll path ++ [""]).
  { cbn [splitAll Ascii.eqb Bool.eqb]. cbn match.
    rewrite !splitAll_append.
    rewrite (splitAll_noSlash t) by apply Ht.
    rewrite (splitAll_noSlash (strconv.FormatInt u)) by apply Hfu.
    rewrite (splitAll_noSlash (strconv.FormatInt p)) by apply Hfp.
    reflexivity. }
  rewrite Clean_rooted_split; [| reflexivity |]; rewrite Hsplit.
  - rewrite !nonEmpties_app, Hout, !nonEmpties_cons_empty.
    rewrite (nonEmpties_real [t; _; _])
      by (repeat (constructor; [assumption |]); constructor).
    change (nonEmpties []) with (@nil string). rewrite app_nil_r.
    subst canon. reflexivity.
  - apply Forall_app. split; [| apply Forall_app; split; trivial].
    + repeat (constructor; [first [now left | now right] |]). constructor.
    + constructor; [now left | constructor].
Qed.

(** What [filepath.Join("/", rest)] makes of the fifth piece. *)
Lemma Join_root_real (out : list string) :
  Forall realElem out →
  filepath.Join ["/"; strings.Join out] = String "/" (strings.Join out).
Proof.
  intros Hout. cbn [filepath.Join].
  unfold filepath.isEmpty at 1. rewrite bool_decide_eq_false_2 by discriminate.
  cbn [strings.Join]. simpl.
  destruct (splitAll_Join_real out Hout) as [Ha Hn].
  rewrite Clean_rooted_split; [| reflexivity |];
    cbn [splitAll Ascii.eqb Bool.eqb]; cbn match.
  - now rewrite !nonEmpties_cons_empty, Hn.
  - repeat (constructor; [now left |]). assumption.
Qed.

(** The pieces [SplitN] makes of a path in canonical form. *)
Lemma SplitN_canonical (t fu fp : string) (out : list string) :
  noSlash t → noSlash fu → noSlash fp →
  strings.SplitN (String "/" (strings.Join (t :: fu :: fp :: out))) 5
  = "" :: t :: fu :: match out with
                     | [] => [fp]
                     | _ => [fp; strings.Join out]
                     end.
Proof.
  intros Ht Hfu Hfp. unfold strings.SplitN, strings.genSplit.
  change (5 =? 0) with false. change (5 <? 0) with false. cbv iota.
  change (Z.to_nat (5 - 1)) with 4%nat.
  rewrite !Join_cons by discriminate.
  transitivity ("" :: strings.splitLoop 3
    (t +:+ String "/" (fu +:+ String "/" (strings.Join (fp :: out)))));
    [reflexivity |].
  rewrite !splitLoop_append by assumption.
  destruct out as [|e out].
  - cbn [strings.Join]. now rewrite splitLoop_noSlash.
  - rewrite Join_cons by discriminate. now rewrite splitLoop_append.
Qed.

(** What [ToTransferPathContext] reads from a path in canonical form. *)
Lemma ToTransferPathContext_canonical (t : string) (u p : Z) (out : list string) :
  noSlash t → 0 < u ≤ strconv.maxInt → 0 < p ≤ strconv.maxInt →
  Forall realElem out →
  ToTransferPathContext
    (String "/"
       (strings.Join (t :: strconv.FormatInt u :: strconv.FormatInt p :: out)))
  = Some (mkTransferPathContext t u p (String "/" (strings.Join out))).
Proof.
  intros Ht Hu Hp Hout.
  pose proof (FormatInt_noSlash u ltac:(lia)) as Hfu.
  pose proof (FormatInt_noSlash p ltac:(lia)) as Hfp.
  unfold ToTransferPathContext. rewrite SplitN_canonical by assumption.
  destruct out as [|e out];
    cbn [length Nat.ltb Nat.leb Nat.eqb lookup list_lookup mbind option_bind];
    rewrite !Atoi_FormatInt by assumption; cbn [fst mbind option_bind].
  - replace (u =? 0) with false by (symmetry; apply Z.eqb_neq; lia).
    replace (p =? 0) with false by (symmetry; apply Z.eqb_neq; lia).
    reflexivity.
  - rewrite Join_root_real by assumption. reflexivity.
Qed.

Lemma cut_None (s : string) : strings.cut s = None → noSlash s.
Proof.
  unfold noSlash. induction s as [|c s IH]; simpl; [reflexivity |].
  destruct (Ascii.eqb c "/"); [discriminate |].
  destruct (strings.cut s) as [[a b]|]; [discriminate | auto].
Qed.

Lemma splitLoop_length (k : nat) (s : string) :
  (1 ≤ length (strings.splitLoop k s) ≤ S k)%nat.
Proof.
  revert s. induction k as [|k IH]; intros s; simpl; [lia |].
  destruct (strings.cut s) as [[a b]|]; simpl; [| lia].
  specialize (IH b). lia.
Qed.

Lemma splitLoop_single (k : nat) (s a : string) :
  strings.splitLoop (S k) s = [a] → noSlash s.
Proof.
  simpl. destruct (strings.cut s) as [[x y]|] eqn:E.
  - intros H. injection H as _ H.
    pose proof (splitLoop_length k y) as Hl. rewrite H in Hl. simpl in Hl. lia.
  - intros _. now apply cut_None.
Qed.

Lemma SplitN_5 (p : string) : strings.SplitN p 5 = strings.splitLoop 4 p.
Proof. reflexivity. Qed.

Lemma Clean_rooted (path : string) :
  filepath.rooted path = true → filepath.rooted (filepath.Clean path) = true.
Proof.
  intros Hr. destruct (Clean_rooted_shape path Hr) as (out & _ & ->).
  reflexivity.
Qed.

Lemma Join_root_rooted (e : string) :
  filepath.rooted (filepath.Join ["/"; e]) = true.
Proof.
  cbn [filepath.Join]. unfold filepath.isEmpty at 1.
  rewrite bool_decide_eq_false_2 by discriminate.
  apply Clean_rooted. reflexivity.
Qed.

(** [ToTransferPathContext] panics on exactly the strings without '/'. *)
Lemma ToTransferPathContext_None (p : string) :
  ToTransferPathContext p = None ↔ noSlash p.
Proof.
  unfold ToTransferPathContext. rewrite SplitN_5.
  pose proof (splitLoop_length 4 p) as Hlen. split.
  - destruct (strings.splitLoop 4 p) as [|a [|b [|c [|d [|e [|f l]]]]]] eqn:E;
      simpl in Hlen; try lia; try discriminate.
    intros _. now apply (splitLoop_single 3 p a).
  - intros Hp. now rewrite splitLoop_noSlash.
Qed.

(** The path of a decoded context: when [SplitN] yields a fifth piece, the
    decoded [Path] is [filepath.Join("/", piece)], which is rooted; when it
    does not, [Path] is "/" if the decoded [UserID] and [ProjectID] are both
    non-zero and the empty string otherwise.  The strings on which there is
    nothing decoded are those without '/'. *)
Theorem ToTransferPathContext_Path_resolution (p : string) :
  match ToTransferPathContext p with
  | Some ctx =>
      match strings.SplitN p 5 !! 4%nat with
      | Some e =>
          Path ctx = filepath.Join ["/"; e]
          ∧ filepath.rooted (Path ctx) = true
      | None =>
          Path ctx = if negb (UserID ctx =? 0) && negb (ProjectID ctx =? 0)
                     then "/" else ""
      end
  | None => noSlash p
  end.
Proof.
  destruct (ToTransferPathContext p) as [ctx|] eqn:Hdec;
    [| now apply ToTransferPathContext_None].
  revert Hdec. unfold ToTransferPathContext. rewrite SplitN_5.
  pose proof (splitLoop_length 4 p) as Hlen.
  destruct (strings.splitLoop 4 p) as [|a [|b [|c [|d [|e [|f l]]]]]];
    simpl in Hlen; try lia;
    cbn [length Nat.ltb Nat.leb Nat.eqb lookup list_lookup mbind option_bind];
    intros Hdec; try discriminate; injection Hdec as <-;
    cbn [Path UserID ProjectID]; try reflexivity.
  split; [reflexivity | apply Join_root_rooted].
Qed.

(** C1 (amended). Let the category be a real path element (not empty, no
    '/', neither [.] nor [..]), the tenant and project ids positive values
    of [int], and the relative path either empty or rooted and clean
    ([filepath.Clean] leaves it as it is).  Then decoding the full encoded
    path gives back the category and both ids, and the relative path in
    canonical form: the path itself, or "/" for the empty one.  So a context
    with a rooted clean path decodes to itself. *)
Theorem ToFSPath_roundtrip (ctx : TransferPathContext) :
  realElem (TransferType ctx) →
  0 < UserID ctx ≤ strconv.maxInt →
  0 < ProjectID ctx ≤ strconv.maxInt →
  Path ctx = ""
  ∨ (filepath.rooted (Path ctx) = true ∧ filepath.Clean (Path ctx) = Path ctx) →
  ToTransferPathContext (ToFSPath ctx "")
  = Some (mkTransferPathContext (TransferType ctx) (UserID ctx) (ProjectID ctx)
            (canonicalPath (Path ctx)))
  ∧ (Path ctx ≠ "" → ToTransferPathContext (ToFSPath ctx "") = Some ctx).
Proof.
  destruct ctx as [t u p path]. cbn [TransferType UserID ProjectID Path].
  intros Ht Hu Hp Hpath.
  destruct (path_elems path Hpath) as (out & Hout & Hall & Hne & Hcanon).
  assert (Hdec : ToTransferPathContext
                   (ToFSPath (mkTransferPathContext t u p path) "")
                 = Some (mkTransferPathContext t u p (canonicalPath path))).
  { rewrite (ToFSPath_canonical t path u p out) by (assumption || lia).
    rewrite ToTransferPathContext_canonical by (assumption || apply Ht).
    now rewrite Hcanon. }
  split; [exact Hdec |].
  intros Hnonempty. rewrite Hdec. unfold canonicalPath.
  now destruct (decide (path = "")).
Qed.

Lemma ToFSPath_roundtrip_witness :
  ToTransferPathContext
    (ToFSPath (mkTransferPathContext "globus" 5 9 "/data/f.txt") "")
  = Some (mkTransferPathContext "globus" 5 9 "/data/f.txt").
Proof.
  refine (proj2 (ToFSPath_roundtrip
                   (mkTransferPathContext "globus" 5 9 "/data/f.txt")
                   _ _ _ _) _).
  - repeat split; discriminate.
  - vm_compute. split; [reflexivity | discriminate].
  - vm_compute. split; [reflexivity | discriminate].
  - right. split; reflexivity.
  - discriminate.
Defined.

(** C1 as stated fails: a rooted path with a trailing '/', a category with a
    '/' in it and the categories [..] and [.] all meet its conditions and do
    not decode to themselves. *)
Lemma ToFSPath_roundtrip_counterexample :
  (let ctx := mkTransferPathContext "globus" 5 9 "/data/" in
   TransferType ctx ≠ "" ∧ 0 < UserID ctx ∧ 0 < ProjectID ctx
   ∧ filepath.rooted (Path ctx) = true
   ∧ ToTransferPathContext (ToFSPath ctx "")
     = Some (mkTransferPathContext "globus" 5 9 "/data")
   ∧ ToTransferPathContext (ToFSPath ctx "") ≠ Some ctx)
  ∧ (let ctx := mkTransferPathContext "a/b" 5 9 "/" in
     TransferType ctx ≠ "" ∧ 0 < UserID ctx ∧ 0 < ProjectID ctx
     ∧ filepath.rooted (Path ctx) = true
     ∧ ToTransferPathContext (ToFSPath ctx "")
       = Some (mkTransferPathContext "a" 0 5 "/9")
     ∧ ToTransferPathContext (ToFSPath ctx "") ≠ Some ctx)
  ∧ (let ctx := mkTransferPathContext ".." 5 9 "/x" in
     TransferType ctx ≠ "" ∧ 0 < UserID ctx ∧ 0 < ProjectID ctx
     ∧ filepath.rooted (Path ctx) = true
     ∧ ToTransferPathContext (ToFSPath ctx "")
       = Some (mkTransferPathContext "5" 9 0 "")
     ∧ ToTransferPathContext (ToFSPath ctx "") ≠ Some ctx)
  ∧ (let ctx := mkTransferPathContext "." 5 9 "/x" in
     TransferType ctx ≠ "" ∧ 0 < UserID ctx ∧ 0 < ProjectID ctx
     ∧ filepath.rooted (Path ctx) = true
     ∧ ToTransferPathContext (ToFSPath ctx "")
       = Some (mkTransferPathContext "5" 9 0 "")
     ∧ ToTransferPathContext (ToFSPath ctx "") ≠ Some ctx).
Proof.
  repeat split; try discriminate; try reflexivity;
    vm_compute; discriminate.
Qed.

(** C2. [ToTransferPathContext] does not return on the empty string: the
    index [pathParts[1]] is out of range there.  On "/", "/cat" and
    "/cat/12" it returns what the specification says. *)
Theorem ToTransferPathContext_empty_string :
  ToTransferPathContext "" = None
  ∧ ToTransferPathContext "/" = Some (mkTransferPathContext "" 0 0 "")
  ∧ ToTransferPathContext "/cat" = Some (mkTransferPathContext "cat" 0 0 "")
  ∧ ToTransferPathContext "/cat/12" = Some (mkTransferPathContext "cat" 12 0 "").
Proof. repeat split. Qed.

(** ** The monitor *)

Section MonitorProperties.

Variable parse : string → option time.Instant.

Lemma bind_run {A B : Type} (x : M A) (f : A → M B) (m m1 : GlobusTaskMonitor)
    (a : A) (evs : list Event) :
  x m = Some (a, m1, evs) → (x ≫= f) m = prependEvents evs (f a m1).
Proof.
  intros H. unfold mbind, M_bind, prependEvents. rewrite H.
  destruct (f a m1) as [[[b m2] e2]|]; reflexivity.
Qed.

Lemma processTask_run (task : globus.Task) (m : GlobusTaskMonitor) :
  processTask parse task m
  = match parse (globus.CompletionTime task) with
    | None => Some (false, m, [LogTimeParseError (globus.CompletionTime task)])
    | Some t => Some (time.After t (lastProcessedTime m), m, [])
    end.
Proof.
  unfold processTask. destruct (parse (globus.CompletionTime task)); reflexivity.
Qed.

Lemma processTask_returns (task : globus.Task) (m : GlobusTaskMonitor) :
  returnsUnchanged (processTask parse task) m.
Proof.
  unfold returnsUnchanged. rewrite processTask_run.
  destruct (parse (globus.CompletionTime task)); eauto.
Qed.

(** What [processTransfers] does, by the first item's destination path. *)
Lemma processTransfers_run (item : globus.TransferItem)
    (items : list globus.TransferItem) (m : GlobusTaskMonitor) :
  processTransfers (globus.mkTransferItems (item :: items)) m
  = Some (tt, m,
      if bool_decide (globus.DestinationPath item = "") then []
      else if (length (strings.Split (globus.DestinationPath item)) <? 5)%nat
      then [LogInvalidDestinationPath (globus.DestinationPath item)]
      else match strings.Split (globus.DestinationPath item) !! 2%nat with
           | Some id =>
               match finishedGlobusTasks m !! id with
               | Some _ => []
               | None => [LogProcessingUpload id]
               end
           | None => []
           end).
Proof.
  unfold processTransfers. cbn [globus.Transfers].
  case_bool_decide; [reflexivity |].
  destruct (length (strings.Split (globus.DestinationPath item)) <? 5)%nat eqn:E;
    [reflexivity |].
  apply Nat.ltb_ge in E.
  destruct (strings.Split (globus.DestinationPath item) !! 2%nat) as [id|] eqn:L.
  - unfold mbind, M_bind, receiver. destruct (finishedGlobusTasks m !! id); reflexivity.
  - apply lookup_ge_None in L. lia.
Qed.

Lemma processTransfers_returns (transfers : globus.TransferItems)
    (m : GlobusTaskMonitor) :
  globus.Transfers transfers ≠ [] →
  returnsUnchanged (processTransfers transfers) m.
Proof.
  destruct transfers as [[|item items]]; [simpl; congruence |]. intros _.
  unfold returnsUnchanged. rewrite processTransfers_run. eauto.
Qed.

(** A round of the loop over the tasks returns, goes on to the next round
    and leaves the monitor's fields as they were. *)
Lemma taskRound_returns (c : Cycle) (i : nat) (task : globus.Task)
    (m : GlobusTaskMonitor) :
  ∃ evs, taskRound parse c i task m = Some (NextRound, m, evs).
Proof.
  unfold taskRound. pose proof (processTask_run task m) as Hp.
  destruct (parse (globus.CompletionTime task)) as [t|];
    rewrite (bind_run _ _ _ _ _ _ Hp); [| eexists; reflexivity].
  destruct (time.After t (lastProcessedTime m)); [| eexists; reflexivity].
  cbn [negb].
  destruct (GetTaskSuccessfulTransfers c i (globus.TaskID task))
    as [err|[[|item items]]]; try (eexists; reflexivity).
  cbn [globus.Transfers length Nat.eqb].
  unfold mbind at 1, M_bind at 1, emit at 1.
  rewrite (bind_run _ _ _ _ _ _ (processTransfers_run item items m)).
  unfold pollDone. destruct (doneAfterTask c i); eexists; reflexivity.
Qed.

Lemma rangeTasks_returns (c : Cycle) (i : nat) (tasks : list globus.Task)
    (m : GlobusTaskMonitor) :
  returnsUnchanged (rangeTasks parse c i tasks) m.
Proof.
  unfold returnsUnchanged.
  revert i. induction tasks as [|task rest IH]; intros i.
  - eexists _, _. reflexivity.
  - cbn [rangeTasks]. destruct (taskRound_returns c i task m) as [evs Hr].
    rewrite (bind_run _ _ _ _ _ _ Hr).
    destruct (IH (S i)) as ([] & evs' & Hrest). rewrite Hrest.
    eexists _, _. reflexivity.
Qed.

Lemma retrieveAndProcessUploads_returns (c : Cycle) (m : GlobusTaskMonitor) :
  returnsUnchanged (retrieveAndProcessUploads parse c) m.
Proof.
  unfold retrieveAndProcessUploads, returnsUnchanged.
  unfold mbind at 1, M_bind at 1, receiver at 1.
  unfold mbind at 1, M_bind at 1, emit at 1.
  destruct (GetEndpointTaskList c (endpointID m) (taskFilter c)) as [err|tasks].
  - eexists _, _. reflexivity.
  - destruct (rangeTasks_returns c 0 (globus.Tasks tasks) m)
      as ([] & evs & Hr).
    rewrite Hr. eexists _, _. reflexivity.
Qed.

Lemma monitorAndProcessTasks_returns (cycles : list Cycle)
    (m : GlobusTaskMonitor) :
  returnsUnchanged (monitorAndProcessTasks parse cycles) m.
Proof.
  unfold returnsUnchanged.
  induction cycles as [|c rest IH].
  - eexists _, _. reflexivity.
  - cbn [monitorAndProcessTasks].
    destruct (retrieveAndProcessUploads_returns c m) as ([] & evs & Hr).
    rewrite (bind_run _ _ _ _ _ _ Hr).
    destruct (doneBeforeTick c); [eexists _, _; reflexivity |].
    unfold mbind at 1, M_bind at 1, emit at 1.
    destruct IH as (st & evs' & Hrest). rewrite Hrest.
    eexists _, _. reflexivity.
Qed.

Lemma Start_returns (cycles : list Cycle) (m : GlobusTaskMonitor) :
  returnsUnchanged (Start parse cycles) m.
Proof.
  unfold Start, returnsUnchanged. unfold mbind at 1, M_bind at 1, emit at 1.
  destruct (monitorAndProcessTasks_returns cycles m) as (st & evs & Hr).
  rewrite Hr. eexists _, _. reflexivity.
Qed.

(** A method that returns unchanged returns nothing else. *)
Lemma returnsUnchanged_state {A : Type} (x : M A)
    (m m' : GlobusTaskMonitor) (a : A) (evs : list Event) :
  returnsUnchanged x m → x m = Some (a, m', evs) → m' = m.
Proof. intros (a' & evs' & H) H'. congruence. Qed.

Lemma pollDone_next (done : bool) : pollDone done = NextRound.
Proof. now destruct done. Qed.

(** The answers about [c.Done()] change nothing in a round, nor in the loop
    over the tasks. *)
Lemma taskRound_done_irrelevant (c : Cycle) (done : nat → bool) (i : nat)
    (task : globus.Task) (m : GlobusTaskMonitor) :
  taskRound parse (withDoneAfterTask c done) i task m = taskRound parse c i task m.
Proof.
  unfold taskRound. cbn [withDoneAfterTask GetTaskSuccessfulTransfers doneAfterTask].
  unfold pollDone. now destruct (done i), (doneAfterTask c i).
Qed.

Lemma rangeTasks_done_irrelevant (c : Cycle) (done : nat → bool) (i : nat)
    (tasks : list globus.Task) (m : GlobusTaskMonitor) :
  rangeTasks parse (withDoneAfterTask c done) i tasks m
  = rangeTasks parse c i tasks m.
Proof.
  revert i. induction tasks as [|task rest IH]; intros i; [reflexivity |].
  cbn [rangeTasks]. destruct (taskRound_returns c i task m) as [evs Hr].
  rewrite (bind_run _ _ _ _ _ _ Hr).
  rewrite <- (taskRound_done_irrelevant c done) in Hr.
  rewrite (bind_run _ _ _ _ _ _ Hr). now rewrite IH.
Qed.

(** C5. No method of the monitor updates [lastProcessedTime]: whatever
    state [processTask], [processTransfers], [retrieveAndProcessUploads] or
    [monitorAndProcessTasks] returns has the value it was called with, and
    after any number of rounds of a started monitor the value is the date
    [NewGlobusTaskMonitor] sets, 2009-11-10 23:00 UTC. *)
Theorem lastProcessedTime_never_updated :
  (∀ task m r m' evs,
     processTask parse task m = Some (r, m', evs) →
     lastProcessedTime m' = lastProcessedTime m)
  ∧ (∀ transfers m r m' evs,
       processTransfers transfers m = Some (r, m', evs) →
       lastProcessedTime m' = lastProcessedTime m)
  ∧ (∀ c m r m' evs,
       retrieveAndProcessUploads parse c m = Some (r, m', evs) →
       lastProcessedTime m' = lastProcessedTime m)
  ∧ (∀ cycles m r m' evs,
       monitorAndProcessTasks parse cycles m = Some (r, m', evs) →
       lastProcessedTime m' = lastProcessedTime m)
  ∧ (∀ endpoint cycles,
       lastProcessedTime
         <$> stateAfter (Start parse cycles (NewGlobusTaskMonitor endpoint))
       = Some (time.Date 2009 time.November 10 23 0 0 0)).
Proof.
  repeat split.
  - intros task m r m' evs H.
    now rewrite (returnsUnchanged_state _ _ _ _ _ (processTask_returns task m) H).
  - intros [[|item items]] m r m' evs H; [discriminate |].
    rewrite processTransfers_run in H. now injection H as _ <- _.
  - intros c m r m' evs H.
    now rewrite (returnsUnchanged_state _ _ _ _ _
                   (retrieveAndProcessUploads_returns c m) H).
  - intros cycles m r m' evs H.
    now rewrite (returnsUnchanged_state _ _ _ _ _
                   (monitorAndProcessTasks_returns cycles m) H).
  - intros endpoint cycles.
    destruct (Start_returns cycles (NewGlobusTaskMonitor endpoint))
      as (st & evs & ->).
    reflexivity.
Qed.

(** C10. No method of the monitor writes [finishedGlobusTasks]: whatever
    state a method returns has the map it was called with, after any number
    of rounds of a started monitor the map is empty, and in such a state
    [processTransfers] logs the upload of every first item whose
    destination path is not empty and has five pieces or more: the lookup
    in the map holds nothing back. *)
Theorem finishedGlobusTasks_never_written :
  (∀ task m r m' evs,
     processTask parse task m = Some (r, m', evs) →
     finishedGlobusTasks m' = finishedGlobusTasks m)
  ∧ (∀ transfers m r m' evs,
       processTransfers transfers m = Some (r, m', evs) →
       finishedGlobusTasks m' = finishedGlobusTasks m)
  ∧ (∀ c m r m' evs,
       retrieveAndProcessUploads parse c m = Some (r, m', evs) →
       finishedGlobusTasks m' = finishedGlobusTasks m)
  ∧ (∀ cycles m r m' evs,
       monitorAndProcessTasks parse cycles m = Some (r, m', evs) →
       finishedGlobusTasks m' = finishedGlobusTasks m)
  ∧ (∀ endpoint cycles,
       finishedGlobusTasks
         <$> stateAfter (Start parse cycles (NewGlobusTaskMonitor endpoint))
       = Some ∅)
  ∧ (∀ endpoint cycles m item items,
       stateAfter (Start parse cycles (NewGlobusTaskMonitor endpoint)) = Some m →
       globus.DestinationPath item ≠ "" →
       (5 ≤ length (strings.Split (globus.DestinationPath item)))%nat →
       ∃ id, strings.Split (globus.DestinationPath item) !! 2%nat = Some id
             ∧ processTransfers (globus.mkTransferItems (item :: items)) m
               = Some (tt, m, [LogProcessingUpload id])).
Proof.
  repeat split.
  - intros task m r m' evs H.
    now rewrite (returnsUnchanged_state _ _ _ _ _ (processTask_returns task m) H).
  - intros [[|item items]] m r m' evs H; [discriminate |].
    rewrite processTransfers_run in H. now injection H as _ <- _.
  - intros c m r m' evs H.
    now rewrite (returnsUnchanged_state _ _ _ _ _
                   (retrieveAndProcessUploads_returns c m) H).
  - intros cycles m r m' evs H.
    now rewrite (returnsUnchanged_state _ _ _ _ _
                   (monitorAndProcessTasks_returns cycles m) H).
  - intros endpoint cycles.
    destruct (Start_returns cycles (NewGlobusTaskMonitor endpoint))
      as (st & evs & ->).
    reflexivity.
  - intros endpoint cycles m item items Hm Hdest Hlen.
    destruct (Start_returns cycles (NewGlobusTaskMonitor endpoint))
      as (st & evs & Hs).
    rewrite Hs in Hm. injection Hm as <-.
    destruct (strings.Split (globus.DestinationPath item) !! 2%nat)
      as [id|] eqn:L; [| apply lookup_ge_None in L; lia].
    exists id. split; [reflexivity |].
    rewrite processTransfers_run, L.
    rewrite bool_decide_eq_false_2 by assumption.
    replace (length (strings.Split (globus.DestinationPath item)) <? 5)%nat
      with false by (symmetry; apply Nat.ltb_ge; lia).
    reflexivity.
Qed.

(** A round starts with its query, returns and leaves the fields. *)
Lemma retrieveAndProcessUploads_head (c : Cycle) (m : GlobusTaskMonitor) :
  ∃ evs, retrieveAndProcessUploads parse c m
         = Some (tt, m,
                 CallGetEndpointTaskList (endpointID m) (taskFilter c) :: evs).
Proof.
  unfold retrieveAndProcessUploads.
  unfold mbind at 1, M_bind at 1, receiver at 1.
  unfold mbind at 1, M_bind at 1, emit at 1.
  destruct (GetEndpointTaskList c (endpointID m) (taskFilter c)) as [err|tasks].
  - eexists. reflexivity.
  - destruct (rangeTasks_returns c 0 (globus.Tasks tasks) m)
      as ([] & evs & Hr).
    rewrite Hr. eexists. reflexivity.
Qed.

(** C6. When [GetEndpointTaskList] answers with an error, the round logs
    it and returns: no task's transfers are asked for, nothing is handed
    off and the monitor's fields are as before.  When the context is not
    done at the end of that round, the loop waits its ten seconds and is
    still running; and the round after it is run from that same state: the
    loop returns, and its events are the failed query and its log line, the
    wait, then the next round's own query and what follows it, ending the
    loop when that round finds the context done and waiting again when it
    does not. *)
Theorem query_failure_abandons_cycle (c : Cycle) (rest : list Cycle)
    (m : GlobusTaskMonitor) (err : error) :
  GetEndpointTaskList c (endpointID m) (taskFilter c) = inl err →
  let evs := [CallGetEndpointTaskList (endpointID m) (taskFilter c);
              LogTaskListError err] in
  retrieveAndProcessUploads parse c m = Some (tt, m, evs)
  ∧ fetched evs = [] ∧ handOffs evs = []
  ∧ (doneBeforeTick c = false →
     monitorAndProcessTasks parse (c :: rest) m
     = prependEvents (evs ++ [WaitTenSeconds])
         (monitorAndProcessTasks parse rest m))
  ∧ (doneBeforeTick c = false →
     monitorAndProcessTasks parse [c] m
     = Some (Running, m, evs ++ [WaitTenSeconds]))
  ∧ (doneBeforeTick c = false →
     ∀ next rest', rest = next :: rest' →
       ∃ evs2 st tail,
         retrieveAndProcessUploads parse next m
         = Some (tt, m,
                 CallGetEndpointTaskList (endpointID m) (taskFilter next)
                 :: evs2)
         ∧ monitorAndProcessTasks parse (c :: rest) m
           = Some (st, m,
                   evs ++ [WaitTenSeconds]
                   ++ (CallGetEndpointTaskList (endpointID m) (taskFilter next)
                       :: evs2)
                   ++ tail)
         ∧ (doneBeforeTick next = true →
            st = Stopped ∧ tail = [LogShuttingDown])
         ∧ (doneBeforeTick next = false →
            ∃ tail', tail = WaitTenSeconds :: tail')).
Proof.
  intros Herr evs.
  assert (Hr : retrieveAndProcessUploads parse c m = Some (tt, m, evs)).
  { unfold retrieveAndProcessUploads.
    unfold mbind at 1, M_bind at 1, receiver at 1.
    unfold mbind at 1, M_bind at 1, emit at 1.
    now rewrite Herr. }
  assert (Hstep : ∀ l, doneBeforeTick c = false →
            monitorAndProcessTasks parse (c :: l) m
            = prependEvents (evs ++ [WaitTenSeconds])
                (monitorAndProcessTasks parse l m)).
  { intros l Htick. cbn [monitorAndProcessTasks].
    rewrite (bind_run _ _ _ _ _ _ Hr), Htick.
    unfold mbind at 1, M_bind at 1, emit at 1, prependEvents.
    destruct (monitorAndProcessTasks parse l m) as [[[st m'] evs']|];
      [| reflexivity].
    cbn [app]. subst evs. reflexivity. }
  split; [exact Hr |]. split; [reflexivity |]. split; [reflexivity |].
  split; [apply Hstep |]. split.
  - intros Htick. rewrite (Hstep [] Htick). reflexivity.
  - intros Htick next rest' ->. rewrite (Hstep _ Htick).
    destruct (retrieveAndProcessUploads_head next m) as [evs2 Hnext].
    cbn [monitorAndProcessTasks]. rewrite (bind_run _ _ _ _ _ _ Hnext).
    destruct (doneBeforeTick next).
    + exists evs2, Stopped, [LogShuttingDown].
      split; [exact Hnext |]. split; [reflexivity |].
      split; [intros _; split; reflexivity | discriminate].
    + destruct (monitorAndProcessTasks_returns rest' m) as (st & e3 & Hrest).
      unfold mbind at 1, M_bind at 1, emit at 1. rewrite Hrest.
      exists evs2, st, (WaitTenSeconds :: e3).
      split; [exact Hnext |]. split; [reflexivity |].
      split; [discriminate | intros _; eexists; reflexivity].
Qed.

(** C7. [processTask] answers true exactly when the completion time parses
    and is strictly after [lastProcessedTime].  A task whose completion time
    does not parse is logged and skipped, and a task completed at or before
    [lastProcessedTime] is skipped in silence: for neither are the transfers
    asked for or [processTransfers] called.  For a task that parses and is
    strictly after, the round goes on to ask for its transfers. *)
Theorem processTask_accepts_iff (c : Cycle) (i : nat) (task : globus.Task)
    (m : GlobusTaskMonitor) :
  ((∃ m' evs, processTask parse task m = Some (true, m', evs))
   ↔ (∃ t, parse (globus.CompletionTime task) = Some t
           ∧ lastProcessedTime m < t))
  ∧ (parse (globus.CompletionTime task) = None →
     taskRound parse c i task m
     = Some (NextRound, m, [LogTimeParseError (globus.CompletionTime task)]))
  ∧ (∀ t, parse (globus.CompletionTime task) = Some t →
          t ≤ lastProcessedTime m →
          taskRound parse c i task m = Some (NextRound, m, []))
  ∧ (∀ t, parse (globus.CompletionTime task) = Some t →
          lastProcessedTime m < t →
          ∃ evs, taskRound parse c i task m
                 = Some (NextRound, m,
                         CallGetTaskSuccessfulTransfers (globus.TaskID task)
                         :: evs)).
Proof.
  pose proof (processTask_run task m) as Hp.
  split; [| split; [| split]].
  4:{ intros t Hsome Hlt. rewrite Hsome in Hp.
      unfold taskRound. rewrite (bind_run _ _ _ _ _ _ Hp).
      unfold time.After.
      replace (lastProcessedTime m <? t) with true
        by (symmetry; apply Z.ltb_lt; lia).
      cbn [negb].
      destruct (GetTaskSuccessfulTransfers c i (globus.TaskID task))
        as [err|[[|item items]]]; try (eexists; reflexivity).
      cbn [globus.Transfers length Nat.eqb].
      unfold mbind at 1, M_bind at 1, emit at 1.
      rewrite (bind_run _ _ _ _ _ _ (processTransfers_run item items m)).
      unfold pollDone. destruct (doneAfterTask c i); eexists; reflexivity. }
  - rewrite Hp. split.
    + intros (m' & evs & H).
      destruct (parse (globus.CompletionTime task)) as [t|]; [| discriminate].
      exists t. split; [reflexivity |].
      injection H as H _ _. now apply Z.ltb_lt in H.
    + intros (t & -> & Hlt). exists m, []. unfold time.After.
      now replace (lastProcessedTime m <? t) with true
        by (symmetry; apply Z.ltb_lt; lia).
  - intros Hnone. rewrite Hnone in Hp. unfold taskRound.
    now rewrite (bind_run _ _ _ _ _ _ Hp).
  - intros t Hsome Hle. rewrite Hsome in Hp. unfold taskRound.
    rewrite (bind_run _ _ _ _ _ _ Hp). unfold time.After.
    now replace (lastProcessedTime m <? t) with false
      by (symmetry; apply Z.ltb_ge; lia).
Qed.

(** A task that passes [processTask] has its transfers asked for. *)
Lemma taskRound_fetches (c : Cycle) (i : nat) (task : globus.Task)
    (m : GlobusTaskMonitor) (t : time.Instant) :
  parse (globus.CompletionTime task) = Some t → lastProcessedTime m < t →
  ∃ evs, taskRound parse c i task m
         = Some (NextRound, m,
                 CallGetTaskSuccessfulTransfers (globus.TaskID task) :: evs).
Proof.
  intros Hsome Hlt. pose proof (processTask_run task m) as Hp.
  rewrite Hsome in Hp. unfold taskRound. rewrite (bind_run _ _ _ _ _ _ Hp).
  unfold time.After.
  replace (lastProcessedTime m <? t) with true
    by (symmetry; apply Z.ltb_lt; lia).
  cbn [negb].
  destruct (GetTaskSuccessfulTransfers c i (globus.TaskID task))
    as [err|[[|item items]]]; try (eexists; reflexivity).
  cbn [globus.Transfers length Nat.eqb].
  unfold mbind at 1, M_bind at 1, emit at 1.
  rewrite (bind_run _ _ _ _ _ _ (processTransfers_run item items m)).
  unfold pollDone. destruct (doneAfterTask c i); eexists; reflexivity.
Qed.

(** C9. Let the transfers of a task have a first item whose destination
    path is empty, or splits into fewer than five pieces.  Then
    [processTransfers] hands nothing off (it returns at once for the empty
    path, and logs the path for the short one), and the loop over the tasks
    goes on with the tasks that follow, from the same state.  When the
    task has passed [processTask], its round is the request for its
    transfers and, for the short path, the log line; the task after it then
    has its own round, whose events follow in the events of the loop, and
    when that task passes [processTask] its transfers are asked for. *)
Theorem handoff_guards (c : Cycle) (i : nat) (task : globus.Task)
    (rest : list globus.Task) (m : GlobusTaskMonitor)
    (item : globus.TransferItem) (items : list globus.TransferItem) :
  GetTaskSuccessfulTransfers c i (globus.TaskID task)
  = inr (globus.mkTransferItems (item :: items)) →
  globus.DestinationPath item = ""
  ∨ (length (strings.Split (globus.DestinationPath item)) < 5)%nat →
  processTransfers (globus.mkTransferItems (item :: items)) m
  = Some (tt, m,
      if bool_decide (globus.DestinationPath item = "") then []
      else [LogInvalidDestinationPath (globus.DestinationPath item)])
  ∧ (∃ evs, handOffs evs = []
            ∧ rangeTasks parse c i (task :: rest) m
              = prependEvents evs (rangeTasks parse c (S i) rest m))
  ∧ (∀ t, parse (globus.CompletionTime task) = Some t →
          lastProcessedTime m < t →
          let evs :=
            CallGetTaskSuccessfulTransfers (globus.TaskID task)
            :: (if bool_decide (globus.DestinationPath item = "") then []
                else [LogInvalidDestinationPath (globus.DestinationPath item)])
          in
          taskRound parse c i task m = Some (NextRound, m, evs)
          ∧ handOffs evs = []
          ∧ rangeTasks parse c i [task] m = Some (tt, m, evs)
          ∧ ∀ next rest', rest = next :: rest' →
              ∃ evsNext tail,
                taskRound parse c (S i) next m = Some (NextRound, m, evsNext)
                ∧ rangeTasks parse c (S (S i)) rest' m = Some (tt, m, tail)
                ∧ rangeTasks parse c i (task :: rest) m
                  = Some (tt, m, evs ++ evsNext ++ tail)
                ∧ (∀ t', parse (globus.CompletionTime next) = Some t' →
                         lastProcessedTime m < t' →
                         ∃ e, evsNext
                              = CallGetTaskSuccessfulTransfers
                                  (globus.TaskID next) :: e)).
Proof.
  intros Hget Hguard.
  assert (Hpt : processTransfers (globus.mkTransferItems (item :: items)) m
    = Some (tt, m,
        if bool_decide (globus.DestinationPath item = "") then []
        else [LogInvalidDestinationPath (globus.DestinationPath item)])).
  { rewrite processTransfers_run. case_bool_decide; [reflexivity |].
    destruct Hguard as [? | Hlt]; [congruence |].
    now replace (length (strings.Split (globus.DestinationPath item)) <? 5)%nat
      with true by (symmetry; apply Nat.ltb_lt; lia). }
  split; [exact Hpt |].
  assert (Hround : ∃ evs, handOffs evs = []
            ∧ taskRound parse c i task m = Some (NextRound, m, evs)).
  { unfold taskRound. pose proof (processTask_run task m) as Hp.
    destruct (parse (globus.CompletionTime task)) as [t|];
      rewrite (bind_run _ _ _ _ _ _ Hp);
      [| eexists; split; [| reflexivity]; reflexivity].
    destruct (time.After t (lastProcessedTime m));
      [| eexists; split; [| reflexivity]; reflexivity].
    cbn [negb]. rewrite Hget. cbn [globus.Transfers length Nat.eqb].
    unfold mbind at 1, M_bind at 1, emit at 1.
    rewrite (bind_run _ _ _ _ _ _ Hpt). rewrite pollDone_next.
    case_bool_decide; (eexists; split; [| reflexivity]); reflexivity. }
  split.
  { destruct Hround as (evs & Hnone & Hround). exists evs.
    split; [exact Hnone |].
    cbn [rangeTasks]. now rewrite (bind_run _ _ _ _ _ _ Hround). }
  intros t Hsome Hlt evs.
  assert (Hthis : taskRound parse c i task m = Some (NextRound, m, evs)).
  { pose proof (processTask_run task m) as Hp. rewrite Hsome in Hp.
    unfold taskRound. rewrite (bind_run _ _ _ _ _ _ Hp). unfold time.After.
    replace (lastProcessedTime m <? t) with true
      by (symmetry; apply Z.ltb_lt; lia).
    cbn [negb]. rewrite Hget. cbn [globus.Transfers length Nat.eqb].
    unfold mbind at 1, M_bind at 1, emit at 1.
    rewrite (bind_run _ _ _ _ _ _ Hpt). rewrite pollDone_next.
    subst evs. case_bool_decide; reflexivity. }
  split; [exact Hthis |]. split.
  { subst evs. case_bool_decide; reflexivity. }
  split.
  { cbn [rangeTasks]. rewrite (bind_run _ _ _ _ _ _ Hthis).
    cbn [prependEvents mret M_ret]. now rewrite app_nil_r. }
  intros next rest' ->.
  destruct (taskRound_returns c (S i) next m) as [evsNext Hnext].
  destruct (rangeTasks_returns c (S (S i)) rest' m) as ([] & tail & Htail).
  exists evsNext, tail. split; [exact Hnext |]. split; [exact Htail |].
  split.
  - cbn [rangeTasks]. rewrite (bind_run _ _ _ _ _ _ Hthis).
    rewrite (bind_run _ _ _ _ _ _ Hnext), Htail. reflexivity.
  - intros t' Hsome' Hlt'.
    destruct (taskRound_fetches c (S i) next m t' Hsome' Hlt') as [e He].
    rewrite He in Hnext. injection Hnext as <-. eauto.
Qed.

End MonitorProperties.

(** ** The monitor on the sample worlds *)

Lemma query_failure_abandons_cycle_witness :
  GetEndpointTaskList failingCycle "ep" (taskFilter failingCycle)
  = inl "connection refused"
  ∧ retrieveAndProcessUploads parseUTCSeconds failingCycle
      (NewGlobusTaskMonitor "ep")
    = Some (tt, NewGlobusTaskMonitor "ep",
            [CallGetEndpointTaskList "ep" (taskFilter failingCycle);
             LogTaskListError "connection refused"])
  ∧ monitorAndProcessTasks parseUTCSeconds [failingCycle; uploadCycle]
      (NewGlobusTaskMonitor "ep")
    = prependEvents
        [CallGetEndpointTaskList "ep" (taskFilter failingCycle);
         LogTaskListError "connection refused"; WaitTenSeconds]
        (monitorAndProcessTasks parseUTCSeconds [uploadCycle]
           (NewGlobusTaskMonitor "ep"))
  ∧ monitorAndProcessTasks parseUTCSeconds [failingCycle]
      (NewGlobusTaskMonitor "ep")
    = Some (Running, NewGlobusTaskMonitor "ep",
            [CallGetEndpointTaskList "ep" (taskFilter failingCycle);
             LogTaskListError "connection refused"; WaitTenSeconds])
  ∧ monitorAndProcessTasks parseUTCSeconds [failingCycle; uploadCycle]
      (NewGlobusTaskMonitor "ep")
    = Some (Running, NewGlobusTaskMonitor "ep",
            [CallGetEndpointTaskList "ep" (taskFilter failingCycle);
             LogTaskListError "connection refused"; WaitTenSeconds;
             CallGetEndpointTaskList "ep" (taskFilter uploadCycle);
             CallGetTaskSuccessfulTransfers "t1";
             LogProcessingUpload "globus"; WaitTenSeconds]).
Proof.
  pose proof (query_failure_abandons_cycle parseUTCSeconds failingCycle
                [uploadCycle] (NewGlobusTaskMonitor "ep") "connection refused"
                eq_refl) as (H1 & _ & _ & H2 & H3 & _).
  split; [reflexivity |]. split; [exact H1 |].
  split; [exact (H2 eq_refl) |]. split; [exact (H3 eq_refl) |].
  reflexivity.
Defined.

Lemma handoff_guards_witness :
  (length (strings.Split "/__transfers/globus") < 5)%nat
  ∧ processTransfers (oneItem "/__transfers/globus") (NewGlobusTaskMonitor "ep")
    = Some (tt, NewGlobusTaskMonitor "ep",
            [LogInvalidDestinationPath "/__transfers/globus"])
  ∧ taskRound parseUTCSeconds mixedCycle 1
      (globus.mkTask "t2" "2021-03-04T05:07:00Z") (NewGlobusTaskMonitor "ep")
    = Some (NextRound, NewGlobusTaskMonitor "ep",
            [CallGetTaskSuccessfulTransfers "t2";
             LogInvalidDestinationPath "/__transfers/globus"])
  ∧ rangeTasks parseUTCSeconds mixedCycle 1
      [globus.mkTask "t2" "2021-03-04T05:07:00Z";
       globus.mkTask "t3" "2021-03-04T05:08:00Z"]
      (NewGlobusTaskMonitor "ep")
    = Some (tt, NewGlobusTaskMonitor "ep",
            [CallGetTaskSuccessfulTransfers "t2";
             LogInvalidDestinationPath "/__transfers/globus";
             CallGetTaskSuccessfulTransfers "t3";
             LogProcessingUpload "globus"]).
Proof.
  assert (Hlen : (length (strings.Split "/__transfers/globus") < 5)%nat)
    by (vm_compute; lia).
  pose proof (handoff_guards parseUTCSeconds mixedCycle 1
                (globus.mkTask "t2" "2021-03-04T05:07:00Z")
                [globus.mkTask "t3" "2021-03-04T05:08:00Z"]
                (NewGlobusTaskMonitor "ep")
                (globus.mkTransferItem "/home/user/f.txt" "/__transfers/globus")
                [] eq_refl (or_intror Hlen)) as (H1 & _ & H3).
  destruct (H3 1614834420000000000 eq_refl eq_refl) as (H4 & _).
  split; [exact Hlen |]. split; [exact H1 |]. split; [exact H4 |].
  reflexivity.
Defined.

(** The tasks of [mixedCycle], one by one: the download and the short path
    hand nothing off, the upload after them is handed off. *)
Example mixedCycle_run :
  let r := retrieveAndProcessUploads parseUTCSeconds mixedCycle
             (NewGlobusTaskMonitor "ep") in
  fetched (events r) = ["t1"; "t2"; "t3"] ∧ handOffs (events r) = ["globus"].
Proof. split; reflexivity. Qed.

(** C3. The same completed task, seen in two rounds, is handed off twice:
    [processTransfers] looks the identifier up in [finishedGlobusTasks] and
    never puts it there. *)
Theorem same_task_handed_off_twice :
  let r := Start parseUTCSeconds [uploadCycle; uploadCycle]
             (NewGlobusTaskMonitor "ep") in
  fetched (events r) = ["t1"; "t1"]
  ∧ handOffs (events r) = ["globus"; "globus"]
  ∧ finishedGlobusTasks <$> stateAfter r = Some ∅.
Proof. repeat split. Qed.

(** C4. With the context done after the first task, the second task of the
    round is processed all the same: the [break] of the [select] leaves the
    [select], not the loop. *)
Theorem done_does_not_stop_the_round :
  let r := retrieveAndProcessUploads parseUTCSeconds cancelledCycle
             (NewGlobusTaskMonitor "ep") in
  doneAfterTask cancelledCycle 0 = true
  ∧ fetched (events r) = ["t1"; "t2"]
  ∧ handOffs (events r) = ["globus"; "globus"].
Proof. repeat split. Qed.

(** ** Further properties *)

(** [filepath.Clean] on entries of the table the Go library tests it with. *)
Example Clean_table :
  filepath.Clean "" = "."
  ∧ filepath.Clean "abc//def//ghi" = "abc/def/ghi"
  ∧ filepath.Clean "abc/" = "abc"
  ∧ filepath.Clean "///abc" = "/abc"
  ∧ filepath.Clean "abc/./../def" = "def"
  ∧ filepath.Clean "abc/def/../.." = "."
  ∧ filepath.Clean "/abc/def/../../.." = "/"
  ∧ filepath.Clean "abc/def/../../.." = ".."
  ∧ filepath.Clean "abc/def/../../../ghi/jkl/../../../mno" = "../../mno"
  ∧ filepath.Clean "/../abc" = "/abc".
Proof. repeat split. Qed.

(** The encodings of the specification's examples. *)
Theorem encoding_examples :
  ProjectPathContext (mkTransferPathContext "globus" 5 9 "") = "/globus/5/9"
  ∧ ToFSPath (mkTransferPathContext "globus" 5 9 "/data/f.txt") ""
    = "/globus/5/9/data/f.txt".
Proof. split; reflexivity. Qed.

(** X1. [ToTransferPathContext] returns on exactly the strings with a '/'. *)
Theorem ToTransferPathContext_returns_iff (p : string) :
  is_Some (ToTransferPathContext p) ↔ strings.Count p ≠ O.
Proof.
  pose proof (ToTransferPathContext_None p) as H. unfold noSlash in H.
  destruct (ToTransferPathContext p) as [ctx|].
  - split; [| eauto]. intros _ Hc. apply H in Hc. discriminate.
  - split; [intros [? ?]; discriminate |]. intros Hc. destruct Hc. now apply H.
Qed.

(** X2. A started monitor never panics, whatever the world answers. *)
Theorem Start_never_panics (parse : string → option time.Instant)
    (cycles : list Cycle) (endpoint : string) :
  is_Some (Start parse cycles (NewGlobusTaskMonitor endpoint)).
Proof.
  destruct (Start_returns parse cycles (NewGlobusTaskMonitor endpoint))
    as (st & evs & ->).
  eauto.
Qed.

(** X3. A round does the same whatever [c.Done()] answers after its
    tasks. *)
Theorem retrieveAndProcessUploads_done_irrelevant
    (parse : string → option time.Instant) (c : Cycle) (done : nat → bool)
    (m : GlobusTaskMonitor) :
  retrieveAndProcessUploads parse (withDoneAfterTask c done) m
  = retrieveAndProcessUploads parse c m.
Proof.
  unfold retrieveAndProcessUploads.
  unfold mbind at 1 3, M_bind at 1 3, receiver.
  unfold mbind at 1 2, M_bind at 1 2, emit at 1 3.
  change (taskFilter (withDoneAfterTask c done)) with (taskFilter c).
  cbn [withDoneAfterTask GetEndpointTaskList].
  destruct (GetEndpointTaskList c (endpointID m) (taskFilter c)) as [err|tasks];
    [reflexivity |].
  change {| lastWeek := lastWeek c;
            GetEndpointTaskList := GetEndpointTaskList c;
            GetTaskSuccessfulTransfers := GetTaskSuccessfulTransfers c;
            doneAfterTask := done;
            doneBeforeTick := doneBeforeTick c |}
    with (withDoneAfterTask c done).
  now rewrite rangeTasks_done_irrelevant.
Qed.

(** ** The codec on paths that are not clean *)

Lemma cleanStep_skipped (r : bool) (st : list string * nat) (e : string) :
  e = "" ∨ e = "." → filepath.cleanStep r st e = st.
Proof. destruct st. now intros [-> | ->]. Qed.

Lemma fold_noDotDot (r : bool) (l out : list string) (dd : nat) :
  Forall (λ e, e ≠ "..") l →
  fold_left (filepath.cleanStep r) l (out, dd) = (out ++ keptElems l, dd).
Proof.
  revert out. induction l as [|e l IH]; intros out Hall.
  - simpl. unfold keptElems. now rewrite filter_nil, app_nil_r.
  - inversion Hall as [|? ? He Hl]; subst. cbn [fold_left]. unfold keptElems.
    destruct (decide (e = "")) as [->|Hne].
    { rewrite cleanStep_skipped by now left.
      rewrite filter_cons_False by (intros [H _]; now apply H). now apply IH. }
    destruct (decide (e = ".")) as [->|Hnd].
    { rewrite cleanStep_skipped by now right.
      rewrite filter_cons_False by (intros [_ H]; now apply H). now apply IH. }
    rewrite filter_cons_True by (split; assumption).
    assert (Hstep : filepath.cleanStep r (out, dd) e = (out ++ [e], dd)).
    { unfold filepath.cleanStep, filepath.isEmpty, filepath.isDot,
        filepath.isDotDot.
      now rewrite !bool_decide_eq_false_2 by assumption. }
    rewrite Hstep, IH by assumption. unfold keptElems. now rewrite <- app_assoc.
Qed.

Lemma keptElems_real (l : list string) :
  Forall noSlash l → Forall (λ e, e ≠ "..") l → Forall realElem (keptElems l).
Proof.
  unfold keptElems. induction l as [|e l IH]; intros Hs Hd.
  - rewrite filter_nil. constructor.
  - inversion Hs as [|? ? Hse Hsl]; inversion Hd as [|? ? Hde Hdl]; subst.
    destruct (decide (e ≠ "" ∧ e ≠ ".")) as [[Hne Hnd]|Hn].
    + rewrite filter_cons_True by (split; assumption).
      constructor; [repeat split; assumption | now apply IH].
    + rewrite filter_cons_False by assumption. now apply IH.
Qed.

Lemma keptElems_app (l1 l2 : list string) :
  keptElems (l1 ++ l2) = keptElems l1 ++ keptElems l2.
Proof. apply filter_app. Qed.

Lemma keptElems_id (l : list string) : Forall realElem l → keptElems l = l.
Proof.
  unfold keptElems. induction 1 as [|e l He Hl IH]; [reflexivity |].
  rewrite filter_cons_True by (split; apply He). now rewrite IH.
Qed.

Lemma keptElems_cons_empty (l : list string) :
  keptElems ("" :: l) = keptElems l.
Proof.
  unfold keptElems.
  now rewrite filter_cons_False by (intros [H _]; now apply H).
Qed.

Lemma noDotDot_splitAll (path : string) :
  noDotDot path → Forall (λ e, e ≠ "..") (splitAll path).
Proof. unfold noDotDot. now rewrite Split_splitAll. Qed.

Lemma kept_splitAll_real (path : string) :
  noDotDot path → Forall realElem (keptElems (splitAll path)).
Proof.
  intros H. apply keptElems_real;
    [apply splitAll_all_noSlash | now apply noDotDot_splitAll].
Qed.

(** What [Clean] makes of a rooted string whose elements are known. *)
Lemma Clean_rooted_elems (path : string) (l : list string) :
  filepath.rooted path = true → splitAll path = l →
  Forall (λ e, e ≠ "..") l →
  filepath.Clean path = String "/" (strings.Join (keptElems l)).
Proof.
  intros Hr Hl Hall. destruct path as [|c s]; [discriminate |].
  unfold filepath.Clean, filepath.cleanElems.
  rewrite Hr, Split_splitAll, Hl. now rewrite fold_noDotDot.
Qed.

(** [Clean] leaves what it made of a rooted path as it is. *)
Lemma Clean_rooted_idempotent (path : string) :
  filepath.rooted path = true →
  filepath.Clean (filepath.Clean path) = filepath.Clean path.
Proof.
  intros Hr. destruct (Clean_rooted_shape path Hr) as (out & Hout & ->).
  destruct (splitAll_Join_real out Hout) as [Ha Hn].
  rewrite Clean_rooted_split; [| reflexivity |];
    cbn [splitAll Ascii.eqb Bool.eqb]; cbn match.
  - now rewrite nonEmpties_cons_empty, Hn.
  - constructor; [now left | assumption].
Qed.

(** What [ToFSPath] writes when neither the path nor the name has a [..]. *)
Lemma ToFSPath_elems (t path name : string) (u p : Z) :
  realElem t → 0 ≤ u → 0 ≤ p → noDotDot path → noDotDot name →
  ToFSPath (mkTransferPathContext t u p path) name
  = String "/"
      (strings.Join (t :: strconv.FormatInt u :: strconv.FormatInt p
                     :: keptElems (splitAll path) ++ keptElems (splitAll name))).
Proof.
  intros Ht Hu Hp Hpath Hname.
  pose proof (FormatInt_realElem u Hu) as Hfu.
  pose proof (FormatInt_realElem p Hp) as Hfp.
  remember (String "/" (strings.Join _)) as canon.
  unfold ToFSPath, Sprintf_d_d.
  cbn [filepath.Join TransferType UserID ProjectID Path].
  unfold filepath.isEmpty at 1. rewrite bool_decide_eq_false_2 by discriminate.
  cbn [strings.Join]. rewrite !append_assoc. simpl.
  rewrite (Clean_rooted_elems _
             (["";  ""; t; strconv.FormatInt u; strconv.FormatInt p]
                ++ splitAll path ++ splitAll name)).
  - rewrite !keptElems_app, !keptElems_cons_empty.
    rewrite (keptElems_id [t; _; _])
      by (repeat (constructor; [assumption |]); constructor).
    subst canon. reflexivity.
  - reflexivity.
  - cbn [splitAll Ascii.eqb Bool.eqb]. cbn match.
    rewrite !splitAll_append.
    rewrite (splitAll_noSlash t) by apply Ht.
    rewrite (splitAll_noSlash (strconv.FormatInt u)) by apply Hfu.
    rewrite (splitAll_noSlash (strconv.FormatInt p)) by apply Hfp.
    reflexivity.
  - apply Forall_app. split; [| apply Forall_app; split].
    + repeat (constructor; [first [discriminate | apply Ht | apply Hfu | apply Hfp] |]).
      constructor.
    + now apply noDotDot_splitAll.
    + now apply noDotDot_splitAll.
Qed.

(** ** The range of [Atoi] *)

Lemma atoiDigits_bound (s : string) (n0 n : Z) :
  0 ≤ n0 → strconv.atoiDigits s n0 = Some n →
  0 ≤ n < (n0 + 1) * 10 ^ Z.of_nat (String.length s).
Proof.
  revert n0. induction s as [|c s IH]; intros n0 Hn0 H.
  - cbn in H. injection H as <-. cbn. lia.
  - cbn [strconv.atoiDigits] in H.
    pose proof (Z.mod_pos_bound (strconv.byteZ c - 48) 256 ltac:(lia)) as Hm.
    destruct (9 <? (strconv.byteZ c - 48) mod 256) eqn:E; [discriminate |].
    apply Z.ltb_ge in E.
    apply IH in H; [| lia].
    cbn [String.length]. rewrite Nat2Z.inj_succ, Z.pow_succ_r by lia.
    assert (0 < 10 ^ Z.of_nat (String.length s)) by (apply Z.pow_pos_nonneg; lia).
    nia.
Qed.

Lemma parseUintLoop_range (s : string) (n : Z) :
  0 ≤ n ≤ strconv.maxUint64 →
  0 ≤ fst (strconv.parseUintLoop s n) ≤ strconv.maxUint64.
Proof.
  assert (Hv : strconv.maxUint64 = 18446744073709551615) by reflexivity.
  revert n. induction s as [|c s IH]; intros n Hn; [exact Hn |].
  cbn [strconv.parseUintLoop].
  destruct ((48 <=? strconv.byteZ c) && (strconv.byteZ c <=? 57));
    [| cbn; lia].
  destruct (strconv.maxUint64 / 10 + 1 <=? n); [cbn; lia |].
  cbv zeta.
  destruct (((n * 10 + (strconv.byteZ c - 48)) mod 2 ^ 64 <? n * 10)
            || (strconv.maxUint64
                <? (n * 10 + (strconv.byteZ c - 48)) mod 2 ^ 64)) eqn:E;
    [cbn; lia |].
  apply orb_false_iff in E as [_ E]. apply Z.ltb_ge in E.
  apply IH. split; [| exact E].
  apply Z.mod_pos_bound. reflexivity.
Qed.

Lemma ParseInt_range (s : string) :
  strconv.minInt ≤ fst (strconv.ParseInt s) ≤ strconv.maxInt.
Proof.
  assert (Hmax : strconv.maxInt = 9223372036854775807) by reflexivity.
  assert (Hmin : strconv.minInt = -9223372036854775808) by reflexivity.
  assert (Hv : strconv.maxUint64 = 18446744073709551615) by reflexivity.
  unfold strconv.ParseInt. destruct s as [|c s]; [cbn [fst]; lia |].
  change (2 ^ (strconv.intSize - 1)) with 9223372036854775808.
  cbv zeta.
  set (s1 := if Ascii.eqb c "+" || Ascii.eqb c "-" then s else String c s).
  clearbody s1.
  assert (Hr : 0 ≤ fst (strconv.ParseUint s1) ≤ strconv.maxUint64).
  { unfold strconv.ParseUint. destruct s1; [cbn [fst]; lia |].
    apply parseUintLoop_range. lia. }
  destruct (strconv.ParseUint s1) as [un err]. cbn [fst] in Hr.
  assert (Hgen : ∀ neg : bool,
    strconv.minInt
    ≤ fst (if negb neg && (9223372036854775808 <=? un)
           then (9223372036854775808 - 1, Some strconv.ErrRange)
           else if neg && (9223372036854775808 <? un)
                then (- 9223372036854775808, Some strconv.ErrRange)
                else (if neg then - un else un, None))
    ≤ strconv.maxInt).
  { intros [|]; cbn [negb andb].
    - destruct (9223372036854775808 <? un) eqn:E; cbn [fst]; [lia |].
      apply Z.ltb_ge in E. lia.
    - destruct (9223372036854775808 <=? un) eqn:E; cbn [fst]; [lia |].
      apply Z.leb_gt in E. lia. }
  destruct err as [[]|]; [cbn [fst]; lia | apply Hgen | apply Hgen].
Qed.

(** [Atoi] gives a value of [int], whatever the string. *)
Lemma Atoi_range (s : string) :
  strconv.minInt ≤ fst (strconv.Atoi s) ≤ strconv.maxInt.
Proof.
  assert (Hmax : strconv.maxInt = 9223372036854775807) by reflexivity.
  assert (Hmin : strconv.minInt = -9223372036854775808) by reflexivity.
  unfold strconv.Atoi.
  destruct ((0 <? String.length s)%nat && (String.length s <? 19)%nat) eqn:E;
    [| apply ParseInt_range].
  apply andb_true_iff in E as [_ E]. apply Nat.ltb_lt in E.
  destruct s as [|c s]; [cbn; lia |]. cbn [String.length] in E.
  set (signed := Ascii.eqb c "-" || Ascii.eqb c "+").
  set (s1 := if signed then s else String c s).
  assert (Hlen : (String.length s1 ≤ 18)%nat)
    by (subst s1; destruct signed; cbn [String.length]; lia).
  destruct (signed && (String.length s1 <? 1)%nat); [cbn; lia |].
  destruct (strconv.atoiDigits s1 0) as [n|] eqn:Hd; [| cbn; lia].
  apply atoiDigits_bound in Hd; [| lia].
  assert (10 ^ Z.of_nat (String.length s1) ≤ 10 ^ 18)
    by (apply Z.pow_le_mono_r; lia).
  assert (10 ^ 18 = 1000000000000000000) by reflexivity.
  destruct (Ascii.eqb c "-"); cbn [fst]; lia.
Qed.

(** ** More of the codec *)

Lemma noDotDot_empty : noDotDot "".
Proof. unfold noDotDot. repeat constructor. discriminate. Qed.

Lemma Clean_canonical (out : list string) :
  Forall realElem out →
  filepath.Clean (String "/" (strings.Join out)) = String "/" (strings.Join out).
Proof.
  intros Hout. destruct (splitAll_Join_real out Hout) as [Ha Hn].
  rewrite Clean_rooted_split; [| reflexivity |];
    cbn [splitAll Ascii.eqb Bool.eqb]; cbn match.
  - now rewrite nonEmpties_cons_empty, Hn.
  - constructor; [now left | assumption].
Qed.

Lemma Join_root_elems (path : string) :
  noDotDot path →
  filepath.Join ["/"; path]
  = String "/" (strings.Join (keptElems (splitAll path))).
Proof.
  intros Hp. cbn [filepath.Join].
  unfold filepath.isEmpty at 1. rewrite bool_decide_eq_false_2 by discriminate.
  cbn [strings.Join]. simpl.
  rewrite (Clean_rooted_elems _ ("" :: "" :: splitAll path)).
  - now rewrite !keptElems_cons_empty.
  - reflexivity.
  - reflexivity.
  - repeat (constructor; [discriminate |]). now apply noDotDot_splitAll.
Qed.

Lemma ProjectPathContext_shape (t path : string) (u p : Z) :
  realElem t → 0 ≤ u → 0 ≤ p →
  ProjectPathContext (mkTransferPathContext t u p path)
  = String "/" (strings.Join [t; strconv.FormatInt u; strconv.FormatInt p]).
Proof.
  intros Ht Hu Hp.
  pose proof (FormatInt_realElem u Hu) as Hfu.
  pose proof (FormatInt_realElem p Hp) as Hfp.
  remember (String "/" (strings.Join _)) as canon.
  unfold ProjectPathContext, Sprintf_d_d.
  cbn [filepath.Join TransferType UserID ProjectID].
  unfold filepath.isEmpty at 1. rewrite bool_decide_eq_false_2 by discriminate.
  cbn [strings.Join]. simpl.
  rewrite (Clean_rooted_elems _
             ["";  ""; t; strconv.FormatInt u; strconv.FormatInt p]).
  - rewrite !keptElems_cons_empty.
    rewrite (keptElems_id [t; _; _])
      by (repeat (constructor; [assumption |]); constructor).
    now subst canon.
  - reflexivity.
  - cbn [splitAll Ascii.eqb Bool.eqb]. cbn match.
    rewrite !splitAll_append.
    rewrite (splitAll_noSlash t) by apply Ht.
    rewrite (splitAll_noSlash (strconv.FormatInt u)) by apply Hfu.
    rewrite (splitAll_noSlash (strconv.FormatInt p)) by apply Hfp.
    reflexivity.
  - repeat (constructor;
            [first [discriminate | apply Ht | apply Hfu | apply Hfp] |]).
    constructor.
Qed.

(** X4. For a category that is a real path element and positive ids of
    [int], [ProjectPathContext] is "/" category "/" user "/" project in
    decimal, whatever the [Path] field holds, and [ToTransferPathContext]
    reads from it the category, both ids and the path "/". *)
Theorem ProjectPathContext_decodes (ctx : TransferPathContext) :
  realElem (TransferType ctx) →
  0 < UserID ctx ≤ strconv.maxInt →
  0 < ProjectID ctx ≤ strconv.maxInt →
  ProjectPathContext ctx
  = "/" +:+ TransferType ctx +:+ "/" +:+ strconv.FormatInt (UserID ctx)
    +:+ "/" +:+ strconv.FormatInt (ProjectID ctx)
  ∧ ToTransferPathContext (ProjectPathContext ctx)
    = Some (mkTransferPathContext (TransferType ctx) (UserID ctx)
              (ProjectID ctx) "/").
Proof.
  destruct ctx as [t u p path]. cbn [TransferType UserID ProjectID].
  intros Ht Hu Hp.
  rewrite ProjectPathContext_shape by (assumption || lia).
  split; [reflexivity |].
  now rewrite (ToTransferPathContext_canonical t u p [])
    by (assumption || apply Ht || constructor).
Qed.

Lemma ProjectPathContext_decodes_witness :
  ProjectPathContext (mkTransferPathContext "globus" 5 9 "/data/f.txt")
  = "/globus/5/9"
  ∧ ToTransferPathContext "/globus/5/9"
    = Some (mkTransferPathContext "globus" 5 9 "/").
Proof.
  exact (ProjectPathContext_decodes
           (mkTransferPathContext "globus" 5 9 "/data/f.txt")
           ltac:(repeat split; discriminate)
           ltac:(vm_compute; split; [reflexivity | discriminate])
           ltac:(vm_compute; split; [reflexivity | discriminate])).
Defined.

(** X5. When the category is a real path element, the ids are positive
    values of [int], the path is rooted and neither the path nor the name
    has a [..] element, decoding [ToFSPath(name)] gives the category, the
    ids, and as path what [ToFilePath(name)] gives. *)
Theorem ToFSPath_decodes_to_ToFilePath (ctx : TransferPathContext)
    (name : string) :
  realElem (TransferType ctx) →
  0 < UserID ctx ≤ strconv.maxInt →
  0 < ProjectID ctx ≤ strconv.maxInt →
  filepath.rooted (Path ctx) = true →
  noDotDot (Path ctx) → noDotDot name →
  ToTransferPathContext (ToFSPath ctx name)
  = Some (mkTransferPathContext (TransferType ctx) (UserID ctx)
            (ProjectID ctx) (ToFilePath ctx name)).
Proof.
  destruct ctx as [t u p path]. cbn [TransferType UserID ProjectID Path].
  intros Ht Hu Hp Hr Hpath Hname.
  rewrite ToFSPath_elems by (assumption || lia).
  rewrite ToTransferPathContext_canonical; try assumption; try apply Ht.
  2:{ apply Forall_app. split; now apply kept_splitAll_real. }
  f_equal. f_equal. unfold ToFilePath. cbn [Path filepath.Join].
  destruct path as [|c s]; [discriminate |].
  unfold filepath.isEmpty at 1. rewrite bool_decide_eq_false_2 by discriminate.
  cbn [strings.Join]. simpl.
  rewrite (Clean_rooted_elems _ (splitAll (String c s) ++ splitAll name)).
  - now rewrite keptElems_app.
  - exact Hr.
  - change (String c (s +:+ String "/" name))
      with (String c s +:+ String "/" name).
    apply splitAll_append.
  - apply Forall_app. split; now apply noDotDot_splitAll.
Qed.

Lemma ToFSPath_decodes_to_ToFilePath_witness :
  ToFilePath (mkTransferPathContext "globus" 5 9 "/data//raw/") "./run1/f.txt"
  = "/data/raw/run1/f.txt"
  ∧ ToTransferPathContext
      (ToFSPath (mkTransferPathContext "globus" 5 9 "/data//raw/")
         "./run1/f.txt")
    = Some (mkTransferPathContext "globus" 5 9 "/data/raw/run1/f.txt").
Proof.
  split; [reflexivity |].
  exact (ToFSPath_decodes_to_ToFilePath
           (mkTransferPathContext "globus" 5 9 "/data//raw/") "./run1/f.txt"
           ltac:(repeat split; discriminate)
           ltac:(vm_compute; split; [reflexivity | discriminate])
           ltac:(vm_compute; split; [reflexivity | discriminate])
           eq_refl
           ltac:(repeat constructor; discriminate)
           ltac:(repeat constructor; discriminate)).
Defined.

(** X6. Encoding then decoding normalizes the path: when the category is a
    real path element, the ids are positive values of [int] and the path
    has no [..] element (it may be empty, relative, or have empty and [.]
    elements), decoding [ToFSPath("")] gives the category, the ids and the
    path [filepath.Join("/", Path)], which for a rooted path is
    [filepath.Clean(Path)]. *)
Theorem ToFSPath_roundtrip_normalizes (ctx : TransferPathContext) :
  realElem (TransferType ctx) →
  0 < UserID ctx ≤ strconv.maxInt →
  0 < ProjectID ctx ≤ strconv.maxInt →
  noDotDot (Path ctx) →
  ToTransferPathContext (ToFSPath ctx "")
  = Some (mkTransferPathContext (TransferType ctx) (UserID ctx)
            (ProjectID ctx) (filepath.Join ["/"; Path ctx]))
  ∧ (filepath.rooted (Path ctx) = true →
     filepath.Join ["/"; Path ctx] = filepath.Clean (Path ctx)).
Proof.
  destruct ctx as [t u p path]. cbn [TransferType UserID ProjectID Path].
  intros Ht Hu Hp Hpath. split.
  - rewrite ToFSPath_elems by (assumption || lia || apply noDotDot_empty).
    change (keptElems (splitAll "")) with (@nil string). rewrite app_nil_r.
    rewrite ToTransferPathContext_canonical; try assumption; try apply Ht.
    + now rewrite Join_root_elems.
    + now apply kept_splitAll_real.
  - intros Hr. rewrite Join_root_elems by assumption.
    symmetry. apply Clean_rooted_elems;
      [assumption | reflexivity | now apply noDotDot_splitAll].
Qed.

Lemma ToFSPath_roundtrip_normalizes_witness :
  ToTransferPathContext
    (ToFSPath (mkTransferPathContext "globus" 5 9 "data/./f.txt/") "")
  = Some (mkTransferPathContext "globus" 5 9 "/data/f.txt").
Proof.
  exact (proj1 (ToFSPath_roundtrip_normalizes
                  (mkTransferPathContext "globus" 5 9 "data/./f.txt/")
                  ltac:(repeat split; discriminate)
                  ltac:(vm_compute; split; [reflexivity | discriminate])
                  ltac:(vm_compute; split; [reflexivity | discriminate])
                  ltac:(repeat constructor; discriminate))).
Defined.

Lemma Join_real_nonempty (out : list string) :
  Forall realElem out → out ≠ [] → strings.Join out ≠ "".
Proof.
  intros Hout Hne. destruct out as [|e out]; [congruence |].
  inversion Hout as [|? ? He _]; subst. destruct He as [He _].
  destruct e; [congruence |]. destruct out; discriminate.
Qed.

(** X7. For a context in canonical form (category a real path element, ids
    not negative, path rooted and clean), the full path is the project path
    followed by the relative path: [ToFSPath("")] is [ProjectPathContext()]
    when the path is "/", and [ProjectPathContext()] with the path appended
    otherwise. *)
Theorem ToFSPath_extends_ProjectPathContext (ctx : TransferPathContext) :
  realElem (TransferType ctx) → 0 ≤ UserID ctx → 0 ≤ ProjectID ctx →
  filepath.rooted (Path ctx) = true →
  filepath.Clean (Path ctx) = Path ctx →
  ToFSPath ctx ""
  = if decide (Path ctx = "/") then ProjectPathContext ctx
    else ProjectPathContext ctx +:+ Path ctx.
Proof.
  destruct ctx as [t u p path]. cbn [TransferType UserID ProjectID Path].
  intros Ht Hu Hp Hr Hc.
  destruct (path_elems path (or_intror (conj Hr Hc)))
    as (out & Hout & Hall & Hne & Hcanon).
  rewrite (ToFSPath_canonical t path u p out) by assumption.
  rewrite ProjectPathContext_shape by assumption.
  unfold canonicalPath in Hcanon.
  destruct (decide (path = "")) as [->|_]; [discriminate |]. subst path.
  destruct out as [|e out].
  - rewrite decide_True by reflexivity. reflexivity.
  - rewrite decide_False.
    2:{ intros H. injection H as H.
        now apply (Join_real_nonempty (e :: out) Hout). }
    rewrite !(Join_cons _ (_ :: _)) by discriminate.
    generalize (strings.Join (e :: out)). intros J.
    cbn [strings.Join]. simpl.
    rewrite append_assoc. simpl. now rewrite append_assoc.
Qed.

Lemma ToFSPath_extends_ProjectPathContext_witness :
  ToFSPath (mkTransferPathContext "globus" 5 9 "/data/f.txt") ""
  = ProjectPathContext (mkTransferPathContext "globus" 5 9 "/data/f.txt")
    +:+ "/data/f.txt".
Proof.
  exact (ToFSPath_extends_ProjectPathContext
           (mkTransferPathContext "globus" 5 9 "/data/f.txt")
           ltac:(repeat split; discriminate)
           ltac:(cbn; lia) ltac:(cbn; lia) eq_refl eq_refl).
Defined.

(** X8. Partial scopes: for a category without '/', the path "/" category
    decodes to the category with both ids 0 and an empty path; with a
    positive user id after it, to the category and that user id, project id
    0 and an empty path.  The path is only set once both ids are. *)
Theorem partial_scopes_decode (t : string) (u : Z) :
  noSlash t → 0 < u ≤ strconv.maxInt →
  ToTransferPathContext ("/" +:+ t) = Some (mkTransferPathContext t 0 0 "")
  ∧ ToTransferPathContext ("/" +:+ t +:+ "/" +:+ strconv.FormatInt u)
    = Some (mkTransferPathContext t u 0 "").
Proof.
  intros Ht Hu. pose proof (FormatInt_noSlash u ltac:(lia)) as Hfu.
  assert (H1 : strings.splitLoop 4 ("/" +:+ t) = [""; t]).
  { transitivity ("" :: strings.splitLoop 3 t); [reflexivity |].
    now rewrite splitLoop_noSlash. }
  assert (H2 : strings.splitLoop 4 ("/" +:+ t +:+ "/" +:+ strconv.FormatInt u)
               = [""; t; strconv.FormatInt u]).
  { transitivity ("" :: strings.splitLoop 3
                          (t +:+ String "/" (strconv.FormatInt u)));
      [reflexivity |].
    now rewrite splitLoop_append, splitLoop_noSlash. }
  unfold ToTransferPathContext. rewrite !SplitN_5, H1, H2.
  split; [reflexivity |].
  cbn [mbind option_bind length Nat.ltb Nat.leb Nat.eqb lookup list_lookup].
  rewrite Atoi_FormatInt by assumption. cbn [fst].
  replace (u =? 0) with false by (symmetry; apply Z.eqb_neq; lia).
  reflexivity.
Qed.

Lemma partial_scopes_decode_witness :
  ToTransferPathContext "/globus"
  = Some (mkTransferPathContext "globus" 0 0 "")
  ∧ ToTransferPathContext "/globus/5"
    = Some (mkTransferPathContext "globus" 5 0 "").
Proof.
  exact (partial_scopes_decode "globus" 5 eq_refl
           ltac:(vm_compute; split; [reflexivity | discriminate])).
Defined.

(** X9. An empty category does not keep ids from being decoded: for
    positive ids of [int], "//" user "/" project decodes to the empty
    category with both ids and the path "/", a context for which [IsRoot],
    [IsUserID] and [IsProject] all hold. *)
Theorem root_with_ids_decodes (u p : Z) :
  0 < u ≤ strconv.maxInt → 0 < p ≤ strconv.maxInt →
  ToTransferPathContext
    ("//" +:+ strconv.FormatInt u +:+ "/" +:+ strconv.FormatInt p)
  = Some (mkTransferPathContext "" u p "/")
  ∧ IsRoot (mkTransferPathContext "" u p "/") = true
  ∧ IsUserID (mkTransferPathContext "" u p "/") = true
  ∧ IsProject (mkTransferPathContext "" u p "/") = true.
Proof.
  intros Hu Hp. split; [| split; [reflexivity | split]].
  - apply (ToTransferPathContext_canonical "" u p []);
      [reflexivity | assumption | assumption | constructor].
  - unfold IsUserID. cbn [UserID].
    now replace (u =? 0) with false by (symmetry; apply Z.eqb_neq; lia).
  - unfold IsProject. cbn [ProjectID].
    now replace (p =? 0) with false by (symmetry; apply Z.eqb_neq; lia).
Qed.

Lemma root_with_ids_decodes_witness :
  ToTransferPathContext "//5/9" = Some (mkTransferPathContext "" 5 9 "/").
Proof.
  exact (proj1 (root_with_ids_decodes 5 9
                  ltac:(vm_compute; split; [reflexivity | discriminate])
                  ltac:(vm_compute; split; [reflexivity | discriminate]))).
Defined.

Lemma cut_Some_noSlash (s a b : string) :
  strings.cut s = Some (a, b) → noSlash a.
Proof.
  unfold noSlash. revert a. induction s as [|c s IH]; intros a; simpl;
    [discriminate |].
  destruct (Ascii.eqb c "/") eqn:E.
  - intros H. injection H as <- _. reflexivity.
  - destruct (strings.cut s) as [[x y]|]; [| discriminate].
    intros H. injection H as <- <-. simpl. rewrite E. now apply IH.
Qed.

Lemma splitLoop_head_noSlash (k : nat) (s h : string) (t : list string) :
  strings.splitLoop (S k) s = h :: t → noSlash h.
Proof.
  simpl. destruct (strings.cut s) as [[a b]|] eqn:E; intros H;
    injection H as <- _.
  - now apply (cut_Some_noSlash s a b).
  - now apply cut_None.
Qed.

Lemma splitLoop_tail (k : nat) (s h x : string) (t : list string) :
  strings.splitLoop (S k) s = h :: x :: t →
  ∃ s', strings.splitLoop k s' = x :: t.
Proof.
  simpl. destruct (strings.cut s) as [[a b]|]; intros H; [| discriminate].
  injection H as _ H. eauto.
Qed.

(** What holds of every context [ToTransferPathContext] returns. *)
Lemma decoded_fields (p : string) (ctx : TransferPathContext) :
  ToTransferPathContext p = Some ctx →
  strings.SplitN p 5 !! 1%nat = Some (TransferType ctx)
  ∧ noSlash (TransferType ctx)
  ∧ strconv.minInt ≤ UserID ctx ≤ strconv.maxInt
  ∧ strconv.minInt ≤ ProjectID ctx ≤ strconv.maxInt
  ∧ (Path ctx = ""
     ∨ (filepath.rooted (Path ctx) = true
        ∧ filepath.Clean (Path ctx) = Path ctx))
  ∧ (Path ctx = "" → UserID ctx = 0 ∨ ProjectID ctx = 0).
Proof.
  assert (Hmax : strconv.maxInt = 9223372036854775807) by reflexivity.
  assert (Hmin : strconv.minInt = -9223372036854775808) by reflexivity.
  unfold ToTransferPathContext. rewrite SplitN_5.
  pose proof (splitLoop_length 4 p) as Hlen.
  destruct (strings.splitLoop 4 p) as [|a [|b l]] eqn:E;
    simpl in Hlen; try lia; [discriminate |].
  assert (Hb : noSlash b).
  { destruct (splitLoop_tail _ _ _ _ _ E) as [s' Hs'].
    now apply (splitLoop_head_noSlash _ _ _ _ Hs'). }
  destruct l as [|c [|d [|e [|f l]]]]; simpl in Hlen; try lia;
    cbn [length Nat.ltb Nat.leb Nat.eqb lookup list_lookup mbind option_bind];
    intros H; injection H as <-; cbn [TransferType UserID ProjectID Path];
    repeat match goal with
           | |- context [fst (strconv.Atoi ?x)] =>
               let R := fresh "R" in
               pose proof (Atoi_range x) as R;
               generalize dependent (fst (strconv.Atoi x)); intros
           end;
    (split; [reflexivity |]); (split; [exact Hb |]);
    (split; [lia |]); (split; [lia |]).
  - split; [now left | now left].
  - rewrite andb_false_r. split; [now left | now right].
  - destruct (negb (z =? 0) && negb (z0 =? 0)) eqn:Hz.
    + split; [right; split; reflexivity | discriminate].
    + split; [now left |]. intros _.
      apply andb_false_iff in Hz as [Hz | Hz];
        apply negb_false_iff, Z.eqb_eq in Hz; auto.
  - pose proof (Clean_rooted (String "/" (String "/" e)) eq_refl) as Hr.
    split.
    + right. split; [exact Hr | now apply Clean_rooted_idempotent].
    + intros Hempty. rewrite Hempty in Hr. discriminate.
Qed.

(** X10. Every context [ToTransferPathContext] returns has a category
    without '/', ids that are values of [int], and a path that is empty or
    rooted and clean; the path is empty only when one of the ids is 0. *)
Theorem decoded_context_wellformed (p : string) (ctx : TransferPathContext) :
  ToTransferPathContext p = Some ctx →
  noSlash (TransferType ctx)
  ∧ strconv.minInt ≤ UserID ctx ≤ strconv.maxInt
  ∧ strconv.minInt ≤ ProjectID ctx ≤ strconv.maxInt
  ∧ (Path ctx = ""
     ∨ (filepath.rooted (Path ctx) = true
        ∧ filepath.Clean (Path ctx) = Path ctx))
  ∧ (Path ctx = "" → UserID ctx = 0 ∨ ProjectID ctx = 0).
Proof. intros H. exact (proj2 (decoded_fields p ctx H)). Qed.

Lemma decoded_context_wellformed_witness :
  let ctx := mkTransferPathContext "cat" 9223372036854775807 7 "/b" in
  ToTransferPathContext "/cat/99999999999999999999/7/a/.././b/" = Some ctx
  ∧ noSlash (TransferType ctx)
  ∧ strconv.minInt ≤ UserID ctx ≤ strconv.maxInt
  ∧ strconv.minInt ≤ ProjectID ctx ≤ strconv.maxInt
  ∧ (Path ctx = ""
     ∨ (filepath.rooted (Path ctx) = true
        ∧ filepath.Clean (Path ctx) = Path ctx))
  ∧ (Path ctx = "" → UserID ctx = 0 ∨ ProjectID ctx = 0).
Proof.
  split; [reflexivity |].
  exact (decoded_context_wellformed
           "/cat/99999999999999999999/7/a/.././b/"
           (mkTransferPathContext "cat" 9223372036854775807 7 "/b") eq_refl).
Defined.

(** X11. A decoded context whose category is a real path element and whose
    ids are both positive is a fixed point of the codec: encoding it with
    [ToFSPath("")] and decoding again gives the same context. *)
Theorem decoded_context_reencodes (p : string) (ctx : TransferPathContext) :
  ToTransferPathContext p = Some ctx →
  realElem (TransferType ctx) → 0 < UserID ctx → 0 < ProjectID ctx →
  ToTransferPathContext (ToFSPath ctx "") = Some ctx.
Proof.
  intros Hdec Ht Hu Hp.
  destruct (decoded_fields p ctx Hdec) as (_ & _ & Hur & Hpr & Hpath & Hempty).
  destruct ctx as [t u q path]. cbn [TransferType UserID ProjectID Path] in *.
  assert (Hne : path ≠ "") by (intros H; destruct (Hempty H); lia).
  destruct (path_elems path Hpath) as (out & Hout & Hall & Hk & Hcanon).
  rewrite (ToFSPath_canonical t path u q out) by (assumption || lia).
  rewrite ToTransferPathContext_canonical
    by (assumption || apply Ht || lia).
  rewrite Hcanon. unfold canonicalPath. now rewrite decide_False.
Qed.

Lemma decoded_context_reencodes_witness :
  ToTransferPathContext "/globus/5/9/data//raw/../f.txt"
  = Some (mkTransferPathContext "globus" 5 9 "/data/f.txt")
  ∧ ToTransferPathContext
      (ToFSPath (mkTransferPathContext "globus" 5 9 "/data/f.txt") "")
    = Some (mkTransferPathContext "globus" 5 9 "/data/f.txt").
Proof.
  split; [reflexivity |].
  exact (decoded_context_reencodes "/globus/5/9/data//raw/../f.txt"
           (mkTransferPathContext "globus" 5 9 "/data/f.txt") eq_refl
           ltac:(repeat split; discriminate) ltac:(cbn; lia) ltac:(cbn; lia)).
Defined.

Lemma splitLoop_Join_head (k : nat) (a : string) (rest : list string) :
  Forall realElem (a :: rest) →
  ∃ t, strings.splitLoop (S k) (strings.Join (a :: rest)) = a :: t.
Proof.
  intros H. inversion H as [|? ? Ha _]; subst. destruct rest as [|b rest].
  - exists []. cbn [strings.Join]. apply splitLoop_noSlash, Ha.
  - rewrite Join_cons by discriminate. eexists.
    apply splitLoop_append, Ha.
Qed.

(** X12. [Node.ToTransferPathContext] always returns: whatever string the
    node's path is, joining it to "/" gives a string with a '/', so the
    index that panics on other strings is in range.  The category it
    returns is empty or a real path element (never [.] or [..]), the
    context is the root exactly when the joined path is "/", and the path
    field is empty or rooted and clean. *)
Theorem Node_ToTransferPathContext_returns (basePath : string) :
  ∃ ctx, Node_ToTransferPathContext basePath = Some ctx
         ∧ (TransferType ctx = "" ∨ realElem (TransferType ctx))
         ∧ (IsRoot ctx = true ↔ filepath.Join ["/"; basePath] = "/")
         ∧ (Path ctx = ""
            ∨ (filepath.rooted (Path ctx) = true
               ∧ filepath.Clean (Path ctx) = Path ctx)).
Proof.
  unfold Node_ToTransferPathContext.
  assert (Hj : ∃ out, Forall realElem out
                      ∧ filepath.Join ["/"; basePath]
                        = String "/" (strings.Join out)).
  { cbn [filepath.Join]. unfold filepath.isEmpty at 1.
    rewrite bool_decide_eq_false_2 by discriminate.
    apply Clean_rooted_shape. reflexivity. }
  destruct Hj as (out & Hout & ->).
  destruct (ToTransferPathContext (String "/" (strings.Join out)))
    as [ctx|] eqn:Hdec.
  2:{ apply ToTransferPathContext_None in Hdec. discriminate. }
  exists ctx. split; [reflexivity |].
  destruct (decoded_fields _ _ Hdec) as (Hcat & _ & _ & _ & Hpath & _).
  rewrite SplitN_5 in Hcat.
  change (strings.splitLoop 4 (String "/" (strings.Join out)))
    with ("" :: strings.splitLoop 3 (strings.Join out)) in Hcat.
  unfold IsRoot. destruct out as [|a rest].
  - cbn in Hcat. injection Hcat as <-.
    split; [now left |]. split; [| exact Hpath].
    now rewrite bool_decide_eq_true_2.
  - destruct (splitLoop_Join_head 2 a rest Hout) as [t Ht].
    rewrite Ht in Hcat. cbn in Hcat. injection Hcat as <-.
    inversion Hout as [|? ? Ha _]; subst.
    split; [now right |]. split; [| exact Hpath].
    rewrite bool_decide_eq_false_2 by apply Ha. split; [discriminate |].
    intros H. injection H as H. exfalso.
    now apply (Join_real_nonempty (a :: rest) Hout).
Qed.

(** ** More of the monitor *)

Lemma splitAll_transfers_globus (rest : string) :
  splitAll ("/__transfers/globus/" +:+ rest)
  = "" :: "__transfers" :: "globus" :: splitAll rest.
Proof.
  change ("/__transfers/globus/" +:+ rest)
    with ("" +:+ String "/"
            ("__transfers" +:+ String "/" ("globus" +:+ String "/" rest))).
  now rewrite !splitAll_append.
Qed.

Lemma taskEvent_queries (evs : list Event) :
  Forall taskEvent evs → queries evs = [].
Proof.
  induction 1 as [|e evs He _ IH]; [reflexivity |].
  destruct e; try (now destruct He); exact IH.
Qed.

Lemma handOffs_app (a b : list Event) :
  handOffs (a ++ b) = handOffs a ++ handOffs b.
Proof. apply omap_app. Qed.

Lemma fetched_app (a b : list Event) :
  fetched (a ++ b) = fetched a ++ fetched b.
Proof. apply omap_app. Qed.

Lemma queries_app (a b : list Event) :
  queries (a ++ b) = queries a ++ queries b.
Proof. apply omap_app. Qed.

Section MonitorRounds.

Variable parse : string → option time.Instant.

(** The events of one round of the loop over the tasks. *)
Lemma taskRound_shape (c : Cycle) (i : nat) (task : globus.Task)
    (m : GlobusTaskMonitor) :
  ∃ evs, taskRound parse c i task m = Some (NextRound, m, evs)
         ∧ Forall taskEvent evs
         ∧ (length (handOffs evs) ≤ length (fetched evs) ≤ 1)%nat.
Proof.
  unfold taskRound. pose proof (processTask_run parse task m) as Hp.
  destruct (parse (globus.CompletionTime task)) as [t|];
    rewrite (bind_run _ _ _ _ _ _ Hp);
    [| eexists; split; [reflexivity |]; split;
       [repeat constructor | cbn; lia]].
  destruct (time.After t (lastProcessedTime m));
    [| eexists; split; [reflexivity |]; split; [constructor | cbn; lia]].
  cbn [negb].
  destruct (GetTaskSuccessfulTransfers c i (globus.TaskID task))
    as [err|[[|item items]]];
    try (eexists; split; [reflexivity |]; split;
         [repeat constructor | cbn; lia]).
  cbn [globus.Transfers length Nat.eqb].
  unfold mbind at 1, M_bind at 1, emit at 1.
  rewrite (bind_run _ _ _ _ _ _ (processTransfers_run item items m)).
  rewrite pollDone_next.
  case_bool_decide;
    [eexists; split; [reflexivity |]; split; [repeat constructor | cbn; lia] |].
  destruct (length (strings.Split (globus.DestinationPath item)) <? 5)%nat;
    [eexists; split; [reflexivity |]; split; [repeat constructor | cbn; lia] |].
  destruct (strings.Split (globus.DestinationPath item) !! 2%nat) as [id|];
    [| eexists; split; [reflexivity |]; split; [repeat constructor | cbn; lia]].
  destruct (finishedGlobusTasks m !! id);
    eexists; (split; [reflexivity |]); split;
      try (repeat constructor); cbn; lia.
Qed.

Lemma rangeTasks_shape (c : Cycle) (i : nat) (tasks : list globus.Task)
    (m : GlobusTaskMonitor) :
  ∃ evs, rangeTasks parse c i tasks m = Some (tt, m, evs)
         ∧ Forall taskEvent evs
         ∧ (length (handOffs evs) ≤ length (fetched evs) ≤ length tasks)%nat.
Proof.
  revert i. induction tasks as [|task rest IH]; intros i.
  - exists []. split; [reflexivity |]. split; [constructor | cbn; lia].
  - cbn [rangeTasks].
    destruct (taskRound_shape c i task m) as (e1 & Hr & He1 & Hl1).
    rewrite (bind_run _ _ _ _ _ _ Hr).
    destruct (IH (S i)) as (e2 & Hrest & He2 & Hl2). rewrite Hrest.
    exists (e1 ++ e2). split; [reflexivity |].
    split; [now apply Forall_app |].
    rewrite handOffs_app, fetched_app, !length_app. cbn [length]. lia.
Qed.

(** The events of one round of the loop of [monitorAndProcessTasks]: the
    query, then its error or the events of the tasks. *)
Lemma retrieveAndProcessUploads_shape (c : Cycle) (m : GlobusTaskMonitor) :
  ∃ evs, retrieveAndProcessUploads parse c m
         = Some (tt, m,
                 CallGetEndpointTaskList (endpointID m) (taskFilter c) :: evs)
         ∧ queries evs = []
         ∧ (length (handOffs evs) ≤ length (fetched evs))%nat
         ∧ (length (fetched evs)
            ≤ match GetEndpointTaskList c (endpointID m) (taskFilter c) with
              | inl _ => 0
              | inr tasks => length (globus.Tasks tasks)
              end)%nat.
Proof.
  unfold retrieveAndProcessUploads.
  unfold mbind at 1, M_bind at 1, receiver at 1.
  unfold mbind at 1, M_bind at 1, emit at 1.
  destruct (GetEndpointTaskList c (endpointID m) (taskFilter c)) as [err|tasks].
  - eexists. split; [reflexivity |]. cbn. repeat split; lia.
  - destruct (rangeTasks_shape c 0 (globus.Tasks tasks) m)
      as (evs & Hr & Hev & Hl).
    rewrite Hr. exists evs. split; [reflexivity |].
    split; [now apply taskEvent_queries | lia].
Qed.

(** X13. In a round, at most one hand-off is made for each task whose
    transfers were asked for, and the transfers of at most as many tasks
    are asked for as the task list has (none when the query failed). *)
Theorem handOffs_bounded_by_fetches (c : Cycle) (m : GlobusTaskMonitor) :
  (length (handOffs (events (retrieveAndProcessUploads parse c m)))
   ≤ length (fetched (events (retrieveAndProcessUploads parse c m))))%nat
  ∧ (length (fetched (events (retrieveAndProcessUploads parse c m)))
     ≤ match GetEndpointTaskList c (endpointID m) (taskFilter c) with
       | inl _ => 0
       | inr tasks => length (globus.Tasks tasks)
       end)%nat.
Proof.
  destruct (retrieveAndProcessUploads_shape c m) as (evs & -> & _ & H1 & H2).
  cbn [events handOffs fetched omap list_omap]. split; assumption.
Qed.

(** X14. The loop of [monitorAndProcessTasks] ends at the first round at
    whose end the context is done: what the world would answer in later
    rounds changes nothing, the monitor's fields are as before, the loop
    has stopped exactly when some round found the context done, and then
    its last event is the shutdown log line. *)
Theorem monitor_stops_at_first_done (cycles : list Cycle)
    (m : GlobusTaskMonitor) :
  monitorAndProcessTasks parse cycles m
  = monitorAndProcessTasks parse (roundsRun cycles) m
  ∧ ∃ evs, monitorAndProcessTasks parse cycles m
           = Some (if existsb doneBeforeTick cycles then Stopped else Running,
                   m, evs)
           ∧ (existsb doneBeforeTick cycles = true →
              last evs = Some LogShuttingDown).
Proof.
  induction cycles as [|c rest [IH1 (evs & IH2 & IH3)]].
  - split; [reflexivity |]. exists []. split; [reflexivity | discriminate].
  - cbn [roundsRun monitorAndProcessTasks existsb].
    destruct (retrieveAndProcessUploads_shape c m) as (e1 & Hr & _).
    rewrite !(bind_run _ _ _ _ _ _ Hr).
    destruct (doneBeforeTick c) eqn:Hd.
    + split; [reflexivity |]. eexists. split; [reflexivity |].
      intros _.
      exact (last_snoc LogShuttingDown
               (CallGetEndpointTaskList (endpointID m) (taskFilter c) :: e1)).
    + cbn [orb]. unfold mbind at 1 2 3, M_bind at 1 2 3, emit at 1 2 3.
      rewrite <- IH1, IH2. split; [reflexivity |].
      eexists. split; [reflexivity |]. intros Hstop.
      specialize (IH3 Hstop). cbn [prependEvents].
      rewrite last_app, last_app, IH3. reflexivity.
Qed.

(** X15. Each round that is run asks for the task list once, from the
    monitor's own endpoint and with that round's filter, and the loop over
    the tasks asks for no task list: the queries of a run are one per round
    up to the first round that finds the context done. *)
Theorem one_query_per_round (cycles : list Cycle) (m : GlobusTaskMonitor) :
  queries (events (monitorAndProcessTasks parse cycles m))
  = map (λ c, (endpointID m, taskFilter c)) (roundsRun cycles).
Proof.
  induction cycles as [|c rest IH]; [reflexivity |].
  cbn [roundsRun monitorAndProcessTasks map].
  destruct (retrieveAndProcessUploads_shape c m) as (e1 & Hr & Hq & _).
  rewrite (bind_run _ _ _ _ _ _ Hr).
  destruct (doneBeforeTick c).
  - change ((emit LogShuttingDown ≫= λ _ : (), mret Stopped) m)
      with (Some (Stopped, m, [LogShuttingDown])).
    cbn [prependEvents events]. rewrite queries_app.
    change (queries (CallGetEndpointTaskList (endpointID m) (taskFilter c) :: e1))
      with ((endpointID m, taskFilter c) :: queries e1).
    now rewrite Hq.
  - unfold mbind at 1, M_bind at 1, emit at 1.
    destruct (monitorAndProcessTasks_returns parse rest m) as (st & e2 & Hrest).
    rewrite Hrest in *. cbn [prependEvents events] in *.
    rewrite !queries_app.
    change (queries (CallGetEndpointTaskList (endpointID m) (taskFilter c) :: e1))
      with ((endpointID m, taskFilter c) :: queries e1).
    rewrite Hq, IH. reflexivity.
Qed.

End MonitorRounds.

(** X16. For a destination path of the format the comment in
    [processTransfers] gives, [/__transfers/globus/<user-id>/<project-id>/...],
    the identifier [pieces[2]] is "globus" whatever the user and the rest
    are: when "globus" is not in [finishedGlobusTasks], the upload that is
    logged is "globus". *)
Theorem documented_destination_hands_off_globus (m : GlobusTaskMonitor)
    (user rest : string) (item : globus.TransferItem)
    (items : list globus.TransferItem) :
  finishedGlobusTasks m !! "globus" = None →
  globus.DestinationPath item
  = "/__transfers/globus/" +:+ user +:+ "/" +:+ rest →
  processTransfers (globus.mkTransferItems (item :: items)) m
  = Some (tt, m, [LogProcessingUpload "globus"]).
Proof.
  intros Hmap Hdest. rewrite processTransfers_run, Hdest.
  rewrite bool_decide_eq_false_2 by discriminate.
  rewrite Split_splitAll, splitAll_transfers_globus.
  change ("/" +:+ rest) with (String "/" rest). rewrite splitAll_append.
  pose proof (splitAll_nonempty user) as Hu.
  pose proof (splitAll_nonempty rest) as Hr.
  destruct (splitAll user) as [|u1 us]; [congruence |].
  destruct (splitAll rest) as [|r1 rs]; [congruence |].
  replace (length ("" :: "__transfers" :: "globus" :: (u1 :: us) ++ r1 :: rs)
           <? 5)%nat with false.
  2:{ symmetry. apply Nat.ltb_ge. cbn [length]. rewrite length_app.
      cbn [length]. lia. }
  cbn [lookup list_lookup]. now rewrite Hmap.
Qed.

Lemma documented_destination_hands_off_globus_witness :
  processTransfers (oneItem "/__transfers/globus/7/12/f.txt")
    (NewGlobusTaskMonitor "ep")
  = Some (tt, NewGlobusTaskMonitor "ep", [LogProcessingUpload "globus"]).
Proof.
  exact (documented_destination_hands_off_globus (NewGlobusTaskMonitor "ep")
           "7" "12/f.txt"
           (globus.mkTransferItem "/home/user/f.txt"
              "/__transfers/globus/7/12/f.txt") [] eq_refl eq_refl).
Defined.

Section MonitorTransfers.

Variable parse : string → option time.Instant.

(** X17. For a task that passes [processTask]: when asking for its
    transfers fails, the round logs the error, and when the task has no
    transfer, the round logs nothing; in both cases nothing is handed off
    and the loop goes on with the tasks that follow, from the same state. *)
Theorem transfers_failure_skips_task (c : Cycle) (i : nat)
    (task : globus.Task) (rest : list globus.Task) (m : GlobusTaskMonitor)
    (t : time.Instant) :
  parse (globus.CompletionTime task) = Some t →
  lastProcessedTime m < t →
  (∀ err, GetTaskSuccessfulTransfers c i (globus.TaskID task) = inl err →
          rangeTasks parse c i (task :: rest) m
          = prependEvents
              [CallGetTaskSuccessfulTransfers (globus.TaskID task);
               LogTransfersError (globus.TaskID task) err]
              (rangeTasks parse c (S i) rest m))
  ∧ (GetTaskSuccessfulTransfers c i (globus.TaskID task)
     = inr (globus.mkTransferItems []) →
     rangeTasks parse c i (task :: rest) m
     = prependEvents [CallGetTaskSuccessfulTransfers (globus.TaskID task)]
         (rangeTasks parse c (S i) rest m)).
Proof.
  intros Hparse Hlt.
  pose proof (processTask_run parse task m) as Hp. rewrite Hparse in Hp.
  unfold time.After in Hp.
  replace (lastProcessedTime m <? t) with true in Hp
    by (symmetry; apply Z.ltb_lt; lia).
  split.
  - intros err Hget.
    assert (Hround : taskRound parse c i task m
              = Some (NextRound, m,
                      [CallGetTaskSuccessfulTransfers (globus.TaskID task);
                       LogTransfersError (globus.TaskID task) err])).
    { unfold taskRound. rewrite (bind_run _ _ _ _ _ _ Hp). cbn [negb].
      now rewrite Hget. }
    cbn [rangeTasks]. now rewrite (bind_run _ _ _ _ _ _ Hround).
  - intros Hget.
    assert (Hround : taskRound parse c i task m
              = Some (NextRound, m,
                      [CallGetTaskSuccessfulTransfers (globus.TaskID task)])).
    { unfold taskRound. rewrite (bind_run _ _ _ _ _ _ Hp). cbn [negb].
      now rewrite Hget. }
    cbn [rangeTasks]. now rewrite (bind_run _ _ _ _ _ _ Hround).
Qed.

End MonitorTransfers.

(** A world where the transfers of the first task cannot be read and the
    second task has none. *)
Lemma transfers_failure_skips_task_witness :
  let c := {| lastWeek := "2021-02-25";
              GetEndpointTaskList := λ _ _, inl "unused";
              GetTaskSuccessfulTransfers := λ i _,
                match i with
                | O => inl "timeout"
                | _ => inr (globus.mkTransferItems [])
                end;
              doneAfterTask := λ _, false;
              doneBeforeTick := false |} in
  rangeTasks parseUTCSeconds c 0
    [globus.mkTask "t1" "2021-03-04T05:06:07Z";
     globus.mkTask "t2" "2021-03-04T05:07:00Z"]
    (NewGlobusTaskMonitor "ep")
  = Some (tt, NewGlobusTaskMonitor "ep",
          [CallGetTaskSuccessfulTransfers "t1"; LogTransfersError "t1" "timeout";
           CallGetTaskSuccessfulTransfers "t2"]).
Proof.
  intros c.
  pose proof (transfers_failure_skips_task parseUTCSeconds c 0
                (globus.mkTask "t1" "2021-03-04T05:06:07Z")
                [globus.mkTask "t2" "2021-03-04T05:07:00Z"]
                (NewGlobusTaskMonitor "ep") 1614834367000000000
                eq_refl eq_refl) as [H _].
  rewrite (H "timeout" eq_refl). reflexivity.
Defined.

Lemma rooted_has_slash (s : string) :
  filepath.rooted s = true → ¬ noSlash s.
Proof.
  destruct s as [|c s]; [discriminate |]. unfold noSlash. simpl.
  intros ->. discriminate.
Qed.

(** X18. Whatever the fields of the context and whatever the name,
    [ToFSPath] and [ProjectPathContext] give a rooted path that [Clean]
    leaves as it is, and [ToTransferPathContext] returns on it: the
    encoders never produce a string on which the decoder panics. *)
Theorem encoded_paths_decode (ctx : TransferPathContext) (name : string) :
  (filepath.rooted (ToFSPath ctx name) = true
   ∧ filepath.Clean (ToFSPath ctx name) = ToFSPath ctx name
   ∧ is_Some (ToTransferPathContext (ToFSPath ctx name)))
  ∧ (filepath.rooted (ProjectPathContext ctx) = true
     ∧ filepath.Clean (ProjectPathContext ctx) = ProjectPathContext ctx
     ∧ is_Some (ToTransferPathContext (ProjectPathContext ctx))).
Proof.
  assert (Hgen : ∀ s, filepath.rooted s = true →
            filepath.rooted (filepath.Clean s) = true
            ∧ filepath.Clean (filepath.Clean s) = filepath.Clean s
            ∧ is_Some (ToTransferPathContext (filepath.Clean s))).
  { intros s Hs. pose proof (Clean_rooted s Hs) as Hr.
    split; [exact Hr |]. split; [now apply Clean_rooted_idempotent |].
    destruct (ToTransferPathContext (filepath.Clean s)) eqn:E; [eauto |].
    apply ToTransferPathContext_None in E.
    now apply rooted_has_slash in Hr. }
  unfold ToFSPath, ProjectPathContext. cbn [filepath.Join].
  unfold filepath.isEmpty.
  rewrite !(bool_decide_eq_false_2 ("/" = "")) by discriminate.
  split; apply Hgen; reflexivity.
Qed.

(** ** The path of a decoded context *)

(** C8. On a string without '/', such as "cat", [SplitN] yields the string
    as its only piece: there is no fifth piece and no id, the case for
    which the specification gives the empty path.  [ToTransferPathContext]
    does not return there: [pathParts[1]] is out of range, so no context and
    no path is decoded. *)
Theorem ToTransferPathContext_no_Path_without_slash :
  strings.SplitN "cat" 5 = ["cat"]
  ∧ strings.SplitN "cat" 5 !! 4%nat = None
  ∧ ToTransferPathContext "cat" = None
  ∧ ∀ p, noSlash p →
         strings.SplitN p 5 = [p] ∧ ToTransferPathContext p = None.
Proof.
  split; [reflexivity |]. split; [reflexivity |]. split; [reflexivity |].
  intros p Hp. split.
  - rewrite SplitN_5. now apply splitLoop_noSlash.
  - now apply ToTransferPathContext_None.
Qed.

(** X19. On every string with a '/', [ToTransferPathContext] returns a
    context whose path follows from the pieces: with a fifth piece, the
    path is [filepath.Join("/", piece)], that is a '/' followed by real
    path elements joined by '/' (no empty, [.] or [..] element, no '/' at
    the end), and when the piece has no [..] element, by those of its
    elements that are neither empty nor [.]; without a fifth piece, the
    path is "/" when both decoded ids are non-zero and empty otherwise. *)
Theorem Path_resolution_with_slash (p : string) :
  strings.Count p ≠ O →
  ∃ ctx, ToTransferPathContext p = Some ctx
    ∧ match strings.SplitN p 5 !! 4%nat with
      | Some e =>
          Path ctx = filepath.Join ["/"; e]
          ∧ (∃ out, Forall realElem out
                    ∧ Path ctx = String "/" (strings.Join out))
          ∧ (noDotDot e →
             Path ctx
             = String "/" (strings.Join (keptElems (strings.Split e))))
      | None =>
          Path ctx = if negb (UserID ctx =? 0) && negb (ProjectID ctx =? 0)
                     then "/" else ""
      end.
Proof.
  intros Hslash.
  pose proof (ToTransferPathContext_Path_resolution p) as Hres.
  destruct (ToTransferPathContext p) as [ctx|];
    [| now destruct Hslash].
  exists ctx. split; [reflexivity |].
  destruct (strings.SplitN p 5 !! 4%nat) as [e|]; [| exact Hres].
  destruct Hres as [Hpath _]. split; [exact Hpath |]. split.
  - rewrite Hpath. cbn [filepath.Join]. unfold filepath.isEmpty at 1.
    rewrite bool_decide_eq_false_2 by discriminate.
    destruct (Clean_rooted_shape (strings.Join ["/"; e]) eq_refl)
      as (out & Hout & Heq).
    exists out. split; [exact Hout | exact Heq].
  - intros He. rewrite Hpath, Split_splitAll. now apply Join_root_elems.
Qed.

Lemma Path_resolution_with_slash_witness :
  ToTransferPathContext "/cat/12/7//a/./b/"
  = Some (mkTransferPathContext "cat" 12 7 "/a/b")
  ∧ strings.SplitN "/cat/12/7//a/./b/" 5 !! 4%nat = Some "/a/./b/"
  ∧ keptElems (strings.Split "/a/./b/") = ["a"; "b"]
  ∧ ∃ ctx, ToTransferPathContext "/cat/12/7//a/./b/" = Some ctx
           ∧ Path ctx = filepath.Join ["/"; "/a/./b/"]
           ∧ (∃ out, Forall realElem out
                     ∧ Path ctx = String "/" (strings.Join out))
           ∧ (noDotDot "/a/./b/" →
              Path ctx
              = String "/" (strings.Join (keptElems (strings.Split "/a/./b/")))).
Proof.
  split; [reflexivity |]. split; [reflexivity |]. split; [reflexivity |].
  exact (Path_resolution_with_slash "/cat/12/7//a/./b/"
           ltac:(vm_compute; discriminate)).
Defined.
